(** * Expense bot: entry parsing, period aggregation and range selection

    A shallow embedding of [expense_bot.py]: the message handler
    [handle_expense], the report generator [generate_report_for_period]
    and the calendar callback handler [handle_calendar], with the
    properties of the specification stated against them. *)

From Stdlib Require Import ZArith Lia Bool List Ascii String Permutation Sorted.
From Stdlib Require Import DecimalPos DecimalN.
From stdpp Require Import base option list sorting gmap.

Import ListNotations.
Local Open Scope Z_scope.

(** ** Text

    A Python [str] is a sequence of Unicode code points. *)

Module Text.

(** Literals of the source file are written as UTF-8 text and decoded
    to code points. *)
Fixpoint utf8_go (need : nat) (acc : Z) (bs : list Z) : list Z :=
  match bs with
  | [] => []
  | b :: bs' =>
      match need with
      | O =>
          if b <? 128 then b :: utf8_go 0 0 bs'
          else if b <? 224 then utf8_go 1 (b - 192) bs'
          else if b <? 240 then utf8_go 2 (b - 224) bs'
          else utf8_go 3 (b - 240) bs'
      | S O => (acc * 64 + (b - 128)) :: utf8_go 0 0 bs'
      | S n => utf8_go n (acc * 64 + (b - 128)) bs'
      end
  end.

Definition py (s : string) : list Z :=
  utf8_go 0 0 (map (fun a => Z.of_nat (nat_of_ascii a)) (list_ascii_of_string s)).

Definition in_range (lo hi c : Z) : bool := (lo <=? c) && (c <=? hi).

(** [str.isspace] on one code point, which is also the class [\s] of
    [re] on [str] patterns: the characters Python's Unicode database
    marks as whitespace. *)
Definition is_space (c : Z) : bool :=
  in_range 9 13 c || in_range 28 32 c || (c =? 133) || (c =? 160)
  || (c =? 5760) || in_range 8192 8202 c || (c =? 8232) || (c =? 8233)
  || (c =? 8239) || (c =? 8287) || (c =? 12288).

(** The zero digits of the blocks of decimal digits (category Nd) of the
    Unicode database, version 14.0, which is that of CPython 3.11; each
    block holds the ten digits in consecutive code points. *)
Definition digit_blocks : list Z :=
  [
    48; 1632; 1776; 1984; 2406; 2534; 2662; 2790; 2918; 3046; 3174; 3302;
    3430; 3558; 3664; 3792; 3872; 4160; 4240; 6112; 6160; 6470; 6608; 6784;
    6800; 6992; 7088; 7232; 7248; 42528; 43216; 43264; 43472; 43504; 43600;
    44016; 65296; 66720; 68912; 69734; 69872; 69942; 70096; 70384; 70736;
    70864; 71248; 71360; 71472; 71904; 72016; 72784; 73040; 73120; 92768;
    92864; 93008; 120782; 120792; 120802; 120812; 120822; 123200; 123632;
    125264; 130032 ].

Fixpoint digit_in (blocks : list Z) (c : Z) : option Z :=
  match blocks with
  | [] => None
  | b :: bs => if in_range b (b + 9) c then Some (c - b) else digit_in bs c
  end.

(** The decimal value of a digit character ([\d] of [re], and the digits
    [float] accepts). *)
Definition digit_value (c : Z) : option Z := digit_in digit_blocks c.

Definition is_digit (c : Z) : bool :=
  match digit_value c with Some _ => true | None => false end.

(** The lower-case mappings of single code points of the same database:
    [(lo, hi, step, delta)] maps the code points [lo], [lo + step], ...
    up to [hi] to themselves plus [delta]. *)
Definition lower_table : list (Z * Z * Z * Z) :=
  [
    (65, 90, 1, 32); (192, 214, 1, 32); (216, 222, 1, 32); (256, 302, 2, 1);
    (306, 310, 2, 1); (313, 327, 2, 1); (330, 374, 2, 1);
    (376, 376, 2, -121); (377, 381, 2, 1); (385, 385, 2, 210);
    (386, 388, 2, 1); (390, 390, 2, 206); (391, 391, 2, 1);
    (393, 394, 1, 205); (395, 395, 2, 1); (398, 398, 2, 79);
    (399, 399, 2, 202); (400, 400, 2, 203); (401, 401, 2, 1);
    (403, 403, 2, 205); (404, 404, 2, 207); (406, 406, 2, 211);
    (407, 407, 2, 209); (408, 408, 2, 1); (412, 412, 2, 211);
    (413, 413, 2, 213); (415, 415, 2, 214); (416, 420, 2, 1);
    (422, 422, 2, 218); (423, 423, 2, 1); (425, 425, 2, 218);
    (428, 428, 2, 1); (430, 430, 2, 218); (431, 431, 2, 1);
    (433, 434, 1, 217); (435, 437, 2, 1); (439, 439, 2, 219);
    (440, 440, 2, 1); (444, 444, 2, 1); (452, 452, 2, 2); (453, 453, 2, 1);
    (455, 455, 2, 2); (456, 456, 2, 1); (458, 458, 2, 2); (459, 475, 2, 1);
    (478, 494, 2, 1); (497, 497, 2, 2); (498, 500, 2, 1);
    (502, 502, 2, -97); (503, 503, 2, -56); (504, 542, 2, 1);
    (544, 544, 2, -130); (546, 562, 2, 1); (570, 570, 2, 10795);
    (571, 571, 2, 1); (573, 573, 2, -163); (574, 574, 2, 10792);
    (577, 577, 2, 1); (579, 579, 2, -195); (580, 580, 2, 69);
    (581, 581, 2, 71); (582, 590, 2, 1); (880, 882, 2, 1); (886, 886, 2, 1);
    (895, 895, 2, 116); (902, 902, 2, 38); (904, 906, 1, 37);
    (908, 908, 2, 64); (910, 911, 1, 63); (913, 929, 1, 32);
    (931, 939, 1, 32); (975, 975, 2, 8); (984, 1006, 2, 1);
    (1012, 1012, 2, -60); (1015, 1015, 2, 1); (1017, 1017, 2, -7);
    (1018, 1018, 2, 1); (1021, 1023, 1, -130); (1024, 1039, 1, 80);
    (1040, 1071, 1, 32); (1120, 1152, 2, 1); (1162, 1214, 2, 1);
    (1216, 1216, 2, 15); (1217, 1229, 2, 1); (1232, 1326, 2, 1);
    (1329, 1366, 1, 48); (4256, 4293, 1, 7264); (4295, 4295, 2, 7264);
    (4301, 4301, 2, 7264); (5024, 5103, 1, 38864); (5104, 5109, 1, 8);
    (7312, 7354, 1, -3008); (7357, 7359, 1, -3008); (7680, 7828, 2, 1);
    (7838, 7838, 2, -7615); (7840, 7934, 2, 1); (7944, 7951, 1, -8);
    (7960, 7965, 1, -8); (7976, 7983, 1, -8); (7992, 7999, 1, -8);
    (8008, 8013, 1, -8); (8025, 8031, 2, -8); (8040, 8047, 1, -8);
    (8072, 8079, 1, -8); (8088, 8095, 1, -8); (8104, 8111, 1, -8);
    (8120, 8121, 1, -8); (8122, 8123, 1, -74); (8124, 8124, 2, -9);
    (8136, 8139, 1, -86); (8140, 8140, 2, -9); (8152, 8153, 1, -8);
    (8154, 8155, 1, -100); (8168, 8169, 1, -8); (8170, 8171, 1, -112);
    (8172, 8172, 2, -7); (8184, 8185, 1, -128); (8186, 8187, 1, -126);
    (8188, 8188, 2, -9); (8486, 8486, 2, -7517); (8490, 8490, 2, -8383);
    (8491, 8491, 2, -8262); (8498, 8498, 2, 28); (8544, 8559, 1, 16);
    (8579, 8579, 2, 1); (9398, 9423, 1, 26); (11264, 11311, 1, 48);
    (11360, 11360, 2, 1); (11362, 11362, 2, -10743);
    (11363, 11363, 2, -3814); (11364, 11364, 2, -10727);
    (11367, 11371, 2, 1); (11373, 11373, 2, -10780);
    (11374, 11374, 2, -10749); (11375, 11375, 2, -10783);
    (11376, 11376, 2, -10782); (11378, 11378, 2, 1); (11381, 11381, 2, 1);
    (11390, 11391, 1, -10815); (11392, 11490, 2, 1); (11499, 11501, 2, 1);
    (11506, 11506, 2, 1); (42560, 42604, 2, 1); (42624, 42650, 2, 1);
    (42786, 42798, 2, 1); (42802, 42862, 2, 1); (42873, 42875, 2, 1);
    (42877, 42877, 2, -35332); (42878, 42886, 2, 1); (42891, 42891, 2, 1);
    (42893, 42893, 2, -42280); (42896, 42898, 2, 1); (42902, 42920, 2, 1);
    (42922, 42922, 2, -42308); (42923, 42923, 2, -42319);
    (42924, 42924, 2, -42315); (42925, 42925, 2, -42305);
    (42926, 42926, 2, -42308); (42928, 42928, 2, -42258);
    (42929, 42929, 2, -42282); (42930, 42930, 2, -42261);
    (42931, 42931, 2, 928); (42932, 42946, 2, 1); (42948, 42948, 2, -48);
    (42949, 42949, 2, -42307); (42950, 42950, 2, -35384);
    (42951, 42953, 2, 1); (42960, 42960, 2, 1); (42966, 42968, 2, 1);
    (42997, 42997, 2, 1); (65313, 65338, 1, 32); (66560, 66599, 1, 40);
    (66736, 66771, 1, 40); (66928, 66938, 1, 39); (66940, 66954, 1, 39);
    (66956, 66962, 1, 39); (66964, 66965, 1, 39); (68736, 68786, 1, 64);
    (71840, 71871, 1, 32); (93760, 93791, 1, 32); (125184, 125217, 1, 34) ].

Definition in_step (r : Z * Z * Z * Z) (c : Z) : bool :=
  let '(lo, hi, step, _) := r in
  in_range lo hi c && ((c - lo) mod step =? 0).

Fixpoint lower_in (table : list (Z * Z * Z * Z)) (c : Z) : Z :=
  match table with
  | [] => c
  | r :: rest => if in_step r c then c + snd r else lower_in rest c
  end.

(** The lower case of one code point, where it is one code point. *)
Definition lower_char (c : Z) : Z := lower_in lower_table c.

(** The code points that the rule of the final sigma skips (the property
    Case_Ignorable), and those among the others that count as letters
    with a case (the property Cased), as ranges [(lo, hi)]. *)
Definition case_ignorable_ranges : list (Z * Z) :=
  [
    (39, 39); (46, 46); (58, 58); (94, 94); (96, 96); (168, 168);
    (173, 173); (175, 175); (180, 180); (183, 184); (688, 879); (884, 885);
    (890, 890); (900, 901); (903, 903); (1155, 1161); (1369, 1369);
    (1375, 1375); (1425, 1469); (1471, 1471); (1473, 1474); (1476, 1477);
    (1479, 1479); (1524, 1524); (1536, 1541); (1552, 1562); (1564, 1564);
    (1600, 1600); (1611, 1631); (1648, 1648); (1750, 1757); (1759, 1768);
    (1770, 1773); (1807, 1807); (1809, 1809); (1840, 1866); (1958, 1968);
    (2027, 2037); (2042, 2042); (2045, 2045); (2070, 2093); (2137, 2139);
    (2184, 2184); (2192, 2193); (2200, 2207); (2249, 2306); (2362, 2362);
    (2364, 2364); (2369, 2376); (2381, 2381); (2385, 2391); (2402, 2403);
    (2417, 2417); (2433, 2433); (2492, 2492); (2497, 2500); (2509, 2509);
    (2530, 2531); (2558, 2558); (2561, 2562); (2620, 2620); (2625, 2626);
    (2631, 2632); (2635, 2637); (2641, 2641); (2672, 2673); (2677, 2677);
    (2689, 2690); (2748, 2748); (2753, 2757); (2759, 2760); (2765, 2765);
    (2786, 2787); (2810, 2815); (2817, 2817); (2876, 2876); (2879, 2879);
    (2881, 2884); (2893, 2893); (2901, 2902); (2914, 2915); (2946, 2946);
    (3008, 3008); (3021, 3021); (3072, 3072); (3076, 3076); (3132, 3132);
    (3134, 3136); (3142, 3144); (3146, 3149); (3157, 3158); (3170, 3171);
    (3201, 3201); (3260, 3260); (3263, 3263); (3270, 3270); (3276, 3277);
    (3298, 3299); (3328, 3329); (3387, 3388); (3393, 3396); (3405, 3405);
    (3426, 3427); (3457, 3457); (3530, 3530); (3538, 3540); (3542, 3542);
    (3633, 3633); (3636, 3642); (3654, 3662); (3761, 3761); (3764, 3772);
    (3782, 3782); (3784, 3789); (3864, 3865); (3893, 3893); (3895, 3895);
    (3897, 3897); (3953, 3966); (3968, 3972); (3974, 3975); (3981, 3991);
    (3993, 4028); (4038, 4038); (4141, 4144); (4146, 4151); (4153, 4154);
    (4157, 4158); (4184, 4185); (4190, 4192); (4209, 4212); (4226, 4226);
    (4229, 4230); (4237, 4237); (4253, 4253); (4348, 4348); (4957, 4959);
    (5906, 5908); (5938, 5939); (5970, 5971); (6002, 6003); (6068, 6069);
    (6071, 6077); (6086, 6086); (6089, 6099); (6103, 6103); (6109, 6109);
    (6155, 6159); (6211, 6211); (6277, 6278); (6313, 6313); (6432, 6434);
    (6439, 6440); (6450, 6450); (6457, 6459); (6679, 6680); (6683, 6683);
    (6742, 6742); (6744, 6750); (6752, 6752); (6754, 6754); (6757, 6764);
    (6771, 6780); (6783, 6783); (6823, 6823); (6832, 6862); (6912, 6915);
    (6964, 6964); (6966, 6970); (6972, 6972); (6978, 6978); (7019, 7027);
    (7040, 7041); (7074, 7077); (7080, 7081); (7083, 7085); (7142, 7142);
    (7144, 7145); (7149, 7149); (7151, 7153); (7212, 7219); (7222, 7223);
    (7288, 7293); (7376, 7378); (7380, 7392); (7394, 7400); (7405, 7405);
    (7412, 7412); (7416, 7417); (7468, 7530); (7544, 7544); (7579, 7679);
    (8125, 8125); (8127, 8129); (8141, 8143); (8157, 8159); (8173, 8175);
    (8189, 8190); (8203, 8207); (8216, 8217); (8228, 8228); (8231, 8231);
    (8234, 8238); (8288, 8292); (8294, 8303); (8305, 8305); (8319, 8319);
    (8336, 8348); (8400, 8432); (11388, 11389); (11503, 11505);
    (11631, 11631); (11647, 11647); (11744, 11775); (11823, 11823);
    (12293, 12293); (12330, 12333); (12337, 12341); (12347, 12347);
    (12441, 12446); (12540, 12542); (40981, 40981); (42232, 42237);
    (42508, 42508); (42607, 42610); (42612, 42621); (42623, 42623);
    (42652, 42655); (42736, 42737); (42752, 42785); (42864, 42864);
    (42888, 42890); (42994, 42996); (43000, 43001); (43010, 43010);
    (43014, 43014); (43019, 43019); (43045, 43046); (43052, 43052);
    (43204, 43205); (43232, 43249); (43263, 43263); (43302, 43309);
    (43335, 43345); (43392, 43394); (43443, 43443); (43446, 43449);
    (43452, 43453); (43471, 43471); (43493, 43494); (43561, 43566);
    (43569, 43570); (43573, 43574); (43587, 43587); (43596, 43596);
    (43632, 43632); (43644, 43644); (43696, 43696); (43698, 43700);
    (43703, 43704); (43710, 43711); (43713, 43713); (43741, 43741);
    (43756, 43757); (43763, 43764); (43766, 43766); (43867, 43871);
    (43881, 43883); (44005, 44005); (44008, 44008); (44013, 44013);
    (64286, 64286); (64434, 64450); (65024, 65039); (65043, 65043);
    (65056, 65071); (65106, 65106); (65109, 65109); (65279, 65279);
    (65287, 65287); (65294, 65294); (65306, 65306); (65342, 65342);
    (65344, 65344); (65392, 65392); (65438, 65439); (65507, 65507);
    (65529, 65531); (66045, 66045); (66272, 66272); (66422, 66426);
    (67456, 67461); (67463, 67504); (67506, 67514); (68097, 68099);
    (68101, 68102); (68108, 68111); (68152, 68154); (68159, 68159);
    (68325, 68326); (68900, 68903); (69291, 69292); (69446, 69456);
    (69506, 69509); (69633, 69633); (69688, 69702); (69744, 69744);
    (69747, 69748); (69759, 69761); (69811, 69814); (69817, 69818);
    (69821, 69821); (69826, 69826); (69837, 69837); (69888, 69890);
    (69927, 69931); (69933, 69940); (70003, 70003); (70016, 70017);
    (70070, 70078); (70089, 70092); (70095, 70095); (70191, 70193);
    (70196, 70196); (70198, 70199); (70206, 70206); (70367, 70367);
    (70371, 70378); (70400, 70401); (70459, 70460); (70464, 70464);
    (70502, 70508); (70512, 70516); (70712, 70719); (70722, 70724);
    (70726, 70726); (70750, 70750); (70835, 70840); (70842, 70842);
    (70847, 70848); (70850, 70851); (71090, 71093); (71100, 71101);
    (71103, 71104); (71132, 71133); (71219, 71226); (71229, 71229);
    (71231, 71232); (71339, 71339); (71341, 71341); (71344, 71349);
    (71351, 71351); (71453, 71455); (71458, 71461); (71463, 71467);
    (71727, 71735); (71737, 71738); (71995, 71996); (71998, 71998);
    (72003, 72003); (72148, 72151); (72154, 72155); (72160, 72160);
    (72193, 72202); (72243, 72248); (72251, 72254); (72263, 72263);
    (72273, 72278); (72281, 72283); (72330, 72342); (72344, 72345);
    (72752, 72758); (72760, 72765); (72767, 72767); (72850, 72871);
    (72874, 72880); (72882, 72883); (72885, 72886); (73009, 73014);
    (73018, 73018); (73020, 73021); (73023, 73029); (73031, 73031);
    (73104, 73105); (73109, 73109); (73111, 73111); (73459, 73460);
    (78896, 78904); (92912, 92916); (92976, 92982); (92992, 92995);
    (94031, 94031); (94095, 94111); (94176, 94177); (94179, 94180);
    (110576, 110579); (110581, 110587); (110589, 110590); (113821, 113822);
    (113824, 113827); (118528, 118573); (118576, 118598); (119143, 119145);
    (119155, 119170); (119173, 119179); (119210, 119213); (119362, 119364);
    (121344, 121398); (121403, 121452); (121461, 121461); (121476, 121476);
    (121499, 121503); (121505, 121519); (122880, 122886); (122888, 122904);
    (122907, 122913); (122915, 122916); (122918, 122922); (123184, 123197);
    (123566, 123566); (123628, 123631); (125136, 125142); (125252, 125259);
    (127995, 127999); (917505, 917505); (917536, 917631); (917760, 917999) ].

Definition cased_ranges : list (Z * Z) :=
  [
    (65, 90); (97, 122); (170, 170); (181, 181); (186, 186); (192, 214);
    (216, 246); (248, 442); (444, 447); (452, 659); (661, 687); (880, 883);
    (886, 887); (891, 893); (895, 895); (902, 902); (904, 906); (908, 908);
    (910, 929); (931, 1013); (1015, 1153); (1162, 1327); (1329, 1366);
    (1376, 1416); (4256, 4293); (4295, 4295); (4301, 4301); (4304, 4346);
    (4349, 4351); (5024, 5109); (5112, 5117); (7296, 7304); (7312, 7354);
    (7357, 7359); (7424, 7467); (7531, 7543); (7545, 7578); (7680, 7957);
    (7960, 7965); (7968, 8005); (8008, 8013); (8016, 8023); (8025, 8025);
    (8027, 8027); (8029, 8029); (8031, 8061); (8064, 8116); (8118, 8124);
    (8126, 8126); (8130, 8132); (8134, 8140); (8144, 8147); (8150, 8155);
    (8160, 8172); (8178, 8180); (8182, 8188); (8450, 8450); (8455, 8455);
    (8458, 8467); (8469, 8469); (8473, 8477); (8484, 8484); (8486, 8486);
    (8488, 8488); (8490, 8493); (8495, 8500); (8505, 8505); (8508, 8511);
    (8517, 8521); (8526, 8526); (8544, 8575); (8579, 8580); (9398, 9449);
    (11264, 11387); (11390, 11492); (11499, 11502); (11506, 11507);
    (11520, 11557); (11559, 11559); (11565, 11565); (42560, 42605);
    (42624, 42651); (42786, 42863); (42865, 42887); (42891, 42894);
    (42896, 42954); (42960, 42961); (42963, 42963); (42965, 42969);
    (42997, 42998); (43002, 43002); (43824, 43866); (43872, 43880);
    (43888, 43967); (64256, 64262); (64275, 64279); (65313, 65338);
    (65345, 65370); (66560, 66639); (66736, 66771); (66776, 66811);
    (66928, 66938); (66940, 66954); (66956, 66962); (66964, 66965);
    (66967, 66977); (66979, 66993); (66995, 67001); (67003, 67004);
    (68736, 68786); (68800, 68850); (71840, 71903); (93760, 93823);
    (119808, 119892); (119894, 119964); (119966, 119967); (119970, 119970);
    (119973, 119974); (119977, 119980); (119982, 119993); (119995, 119995);
    (119997, 120003); (120005, 120069); (120071, 120074); (120077, 120084);
    (120086, 120092); (120094, 120121); (120123, 120126); (120128, 120132);
    (120134, 120134); (120138, 120144); (120146, 120485); (120488, 120512);
    (120514, 120538); (120540, 120570); (120572, 120596); (120598, 120628);
    (120630, 120654); (120656, 120686); (120688, 120712); (120714, 120744);
    (120746, 120770); (120772, 120779); (122624, 122633); (122635, 122654);
    (125184, 125251); (127280, 127305); (127312, 127337); (127344, 127369) ].

Definition in_ranges (ranges : list (Z * Z)) (c : Z) : bool :=
  existsb (fun r => in_range (fst r) (snd r) c) ranges.

Definition is_case_ignorable (c : Z) : bool := in_ranges case_ignorable_ranges c.

Definition is_cased (c : Z) : bool := in_ranges cased_ranges c.

(** A capital sigma is final when a cased letter stands before it, with
    nothing but ignorable code points between them, and no cased letter
    stands after it in the same way. [before] is the text before the
    sigma, from the sigma backwards. *)
Fixpoint cased_before (before : list Z) : bool :=
  match before with
  | [] => false
  | c :: before' =>
      if is_case_ignorable c then cased_before before' else is_cased c
  end.

Fixpoint no_cased_after (after : list Z) : bool :=
  match after with
  | [] => true
  | c :: after' =>
      if is_case_ignorable c then no_cased_after after' else negb (is_cased c)
  end.

(** [str.lower] at one place of a string: the capital sigma (931)
    becomes the final or the other small sigma, the capital I with a dot
    (304) becomes an i and a combining dot, and every other code point
    follows the table. *)
Definition lower_at (before : list Z) (c : Z) (after : list Z) : list Z :=
  if c =? 931 then
    [if cased_before before && no_cased_after after then 962 else 963]
  else if c =? 304 then [105; 775]
  else [lower_char c].

Fixpoint lower_go (before : list Z) (s : list Z) : list Z :=
  match s with
  | [] => []
  | c :: s' => lower_at before c s' ++ lower_go (c :: before) s'
  end.

(** [str.lower] *)
Definition lower (s : list Z) : list Z := lower_go [] s.

(** [str.lstrip], [str.rstrip] and [str.strip] without argument. *)
Fixpoint lstrip (s : list Z) : list Z :=
  match s with
  | c :: s' => if is_space c then lstrip s' else s
  | [] => []
  end.

Definition rstrip (s : list Z) : list Z := rev (lstrip (rev s)).

Definition strip (s : list Z) : list Z := rstrip (lstrip s).

(** [s.rstrip(ch)] for a one-character argument. *)
Fixpoint lstrip_char (ch : Z) (s : list Z) : list Z :=
  match s with
  | c :: s' => if c =? ch then lstrip_char ch s' else s
  | [] => []
  end.

Definition rstrip_char (ch : Z) (s : list Z) : list Z :=
  rev (lstrip_char ch (rev s)).

(** [s.replace(a, b)] for one-character [a] and [b]. *)
Definition replace_char (a b : Z) (s : list Z) : list Z :=
  map (fun c => if c =? a then b else c) s.

(** [sep.join(parts)]. *)
Fixpoint join (sep : list Z) (parts : list (list Z)) : list Z :=
  match parts with
  | [] => []
  | [p] => p
  | p :: ps => p ++ sep ++ join sep ps
  end.

Definition eqb (a b : list Z) : bool := bool_decide (a = b).

(** Comparison of two [str] values: lexicographic on code points. *)
Fixpoint ltb (a b : list Z) : bool :=
  match a, b with
  | [], [] => false
  | [], _ :: _ => true
  | _ :: _, [] => false
  | x :: a', y :: b' => (x <? y) || ((x =? y) && ltb a' b')
  end.

End Text.

(** ** Floating-point numbers

    Python's [float] is IEEE 754 binary64. The values this program
    computes are never negative and never NaN: amounts are read from
    digit strings and rounded, and their sums are sums of such amounts.
    A finite value is held as its
    count of units of 2^-1074, the spacing of the smallest binary64
    numbers, of which every finite binary64 number is a whole multiple;
    rounding is to nearest, ties to even, on 53 significant bits. *)

Module Float.

Inductive float : Type :=
  | Fin (u : Z)
  | Inf.

Definition zero : float := Fin 0.

(** [num / den] rounded to the nearest integer, ties to the even one. *)
Definition half_even (num den : Z) : Z :=
  let q := num / den in
  let r := num mod den in
  if 2 * r <? den then q
  else if (2 * r =? den) && Z.even q then q
  else q + 1.

(** The binary64 number nearest to [num / den] units. *)
Definition round_units (num den : Z) : float :=
  let s := Z.max 0 (Z.log2 (num / den) + 1 - 53) in
  let u := half_even num (den * 2 ^ s) * 2 ^ s in
  if u <? 2 ^ 2098 then Fin u else Inf.

(** The binary64 number nearest to [n / 10^k]: what [float] yields for a
    digit string with [k] digits after the point. *)
Definition of_decimal (n k : Z) : float :=
  round_units (n * 2 ^ 1074) (10 ^ k).

Definition add (x y : float) : float :=
  match x, y with
  | Fin a, Fin b => round_units (a + b) 1
  | _, _ => Inf
  end.

Definition leb (x y : float) : bool :=
  match x, y with
  | Fin a, Fin b => a <=? b
  | _, Inf => true
  | Inf, Fin _ => false
  end.

Definition ltb (x y : float) : bool := negb (leb y x).

(** The value in hundredths, correctly rounded: the digits that both
    [round(x, 2)] and the format [.2f] compute. *)
Definition cents (u : Z) : Z := half_even (u * 100) (2 ^ 1074).

(** [round(x, 2)]: the nearest two-decimal number, converted back. *)
Definition round2 (x : float) : float :=
  match x with
  | Fin u => of_decimal (cents u) 2
  | Inf => Inf
  end.

End Float.

(** ** The entry pattern

    [re.match(r'^([\d,\.]+)\s*[рруб]*\s+(.+)$', entry_lower)], with the
    backtracking order of [re]: every repetition is greedy, takes as many
    characters as it can and gives them back one at a time when the rest
    of the pattern fails. *)

Module Re.

Import Text.

(** A greedy repetition of a character class, at least [min] times,
    followed by the rest of the pattern [k], which receives the matched
    characters and the remaining input. *)
Fixpoint greedy {R : Type} (p : Z -> bool) (min : nat) (s : list Z)
    (k : list Z -> list Z -> option R) : option R :=
  let stop := match min with O => k [] s | S _ => None end in
  match s with
  | c :: s' =>
      if p c then
        match greedy p (Nat.pred min) s' (fun m r => k (c :: m) r) with
        | Some x => Some x
        | None => stop
        end
      else stop
  | [] => stop
  end.

(** [[\d,\.]] *)
Definition is_amount_char (c : Z) : bool :=
  is_digit c || (c =? 44) || (c =? 46).

(** [[рруб]] *)
Definition is_currency_char (c : Z) : bool :=
  (c =? 1088) || (c =? 1091) || (c =? 1073).

(** [[\s]] or [[рруб]]: what may stand between the amount and the
    label. *)
Definition is_gap_char (c : Z) : bool := is_space c || is_currency_char c.

(** [.] without the DOTALL flag: any character but the line feed. *)
Definition is_any_char (c : Z) : bool := negb (c =? 10).

(** [$] without the MULTILINE flag: the end of the input, or the place
    before a line feed that ends the input. *)
Definition at_end (s : list Z) : bool :=
  match s with
  | [] => true
  | [c] => c =? 10
  | _ => false
  end.

(** The two groups of the match, if there is one. *)
Definition match_entry (s : list Z) : option (list Z * list Z) :=
  greedy is_amount_char 1 s (fun g1 r1 =>
  greedy is_space 0 r1 (fun _ r2 =>
  greedy is_currency_char 0 r2 (fun _ r3 =>
  greedy is_space 1 r3 (fun _ r4 =>
  greedy is_any_char 1 r4 (fun g2 r5 =>
  if at_end r5 then Some (g1, g2) else None))))).

(** [[\n,;]] *)
Definition is_separator (c : Z) : bool :=
  (c =? 10) || (c =? 44) || (c =? 59).

(** [re.split(r'[\n,;]+', text)]: the pieces between the runs of
    separators, the empty pieces at both ends included. [cur] holds the
    piece being read, reversed; [in_run] tells that the last character
    read was a separator. *)
Fixpoint split_go (in_run : bool) (cur : list Z) (s : list Z) : list (list Z) :=
  match s with
  | [] => [rev cur]
  | c :: s' =>
      if is_separator c then
        if in_run then split_go true [] s'
        else rev cur :: split_go true [] s'
      else split_go false (c :: cur) s'
  end.

Definition split (text : list Z) : list (list Z) := split_go false [] text.

End Re.

(** ** The ledger

    The table [expenses] of the database, in the order of insertion. *)

Module Ledger.

Record date : Type := Date { year : Z; month : Z; day : Z }.

Definition is_leap (y : Z) : bool :=
  (y mod 4 =? 0) && (negb (y mod 100 =? 0) || (y mod 400 =? 0)).

Definition days_in_month (y m : Z) : Z :=
  if m =? 2 then (if is_leap y then 29 else 28)
  else if (m =? 4) || (m =? 6) || (m =? 9) || (m =? 11) then 30
  else 31.

(** [date(year, month, day)], which raises [ValueError] out of range. *)
Definition mk_date (y m d : Z) : option date :=
  if (1 <=? y) && (y <=? 9999) && (1 <=? m) && (m <=? 12)
     && (1 <=? d) && (d <=? days_in_month y m)
  then Some (Date y m d) else None.

Definition date_ltb (a b : date) : bool :=
  (year a <? year b)
  || ((year a =? year b)
      && ((month a <? month b)
          || ((month a =? month b) && (day a <? day b)))).

Definition date_leb (a b : date) : bool := negb (date_ltb b a).

Definition date_eqb (a b : date) : bool :=
  (year a =? year b) && (month a =? month b) && (day a =? day b).

(** A value of [CURRENT_TIMESTAMP]: a date and the second of that day. *)
Definition timestamp : Type := date * Z.

Definition timestamp_leb (a b : timestamp) : bool :=
  date_ltb (fst a) (fst b) || (date_eqb (fst a) (fst b) && (snd a <=? snd b)).

Record expense : Type := Expense {
  user_id : Z;
  category : list Z;
  amount : Float.float;
  created_at : timestamp
}.

End Ledger.

(** ** Entry parsing: [handle_expense] *)

Module Parser.

Import Text Re Ledger.

(** [float(s)] for a string of digits and points, which is all that the
    first group of the pattern can hold once its commas are replaced:
    digits with at most one point among them. [ValueError] is [None].
    The scan keeps the digits read so far as a number, and the count of
    those read after the point. *)
Fixpoint scan_decimal (s : list Z) (seen_point any_digit : bool) (n k : Z)
    : option (Z * Z) :=
  match s with
  | [] => if any_digit then Some (n, k) else None
  | c :: s' =>
      match digit_value c with
      | Some d =>
          scan_decimal s' seen_point true (10 * n + d)
                       (if seen_point then k + 1 else k)
      | None =>
          if (c =? 46) && negb seen_point
          then scan_decimal s' true any_digit n k
          else None
      end
  end.

Definition float_of_str (s : list Z) : option Float.float :=
  match scan_decimal s false false 0 0 with
  | Some (n, k) => Some (Float.of_decimal n k)
  | None => None
  end.

(** What the body of the loop makes of one entry. *)
Inductive outcome : Type :=
  | Stored (category : list Z) (amount : Float.float)
  | BadFormat
  | BadAmount.

Definition parse_entry (entry : list Z) : outcome :=
  let entry_lower := lower entry in
  match match_entry entry_lower with
  | None => BadFormat
  | Some (group1, group2) =>
      let amount_str := replace_char 44 46 group1 in
      match float_of_str amount_str with
      | None => BadAmount
      | Some amount =>
          if Float.leb amount Float.zero then BadAmount
          else Stored (strip group2) (Float.round2 amount)
      end
  end.

(** The entries of a message: the pieces of the text, stripped, the
    empty ones dropped. *)
Definition entries_of (text : list Z) : list (list Z) :=
  map strip (List.filter (fun entry => negb (eqb (strip entry) [])) (split text)).

Definition outcomes (text : list Z) : list outcome :=
  map parse_entry (entries_of (strip text)).

End Parser.

(** ** Decimal numerals *)

Module Numeral.

Fixpoint chars_of_uint (d : Decimal.uint) : list Z :=
  match d with
  | Decimal.Nil => []
  | Decimal.D0 d' => 48 :: chars_of_uint d'
  | Decimal.D1 d' => 49 :: chars_of_uint d'
  | Decimal.D2 d' => 50 :: chars_of_uint d'
  | Decimal.D3 d' => 51 :: chars_of_uint d'
  | Decimal.D4 d' => 52 :: chars_of_uint d'
  | Decimal.D5 d' => 53 :: chars_of_uint d'
  | Decimal.D6 d' => 54 :: chars_of_uint d'
  | Decimal.D7 d' => 55 :: chars_of_uint d'
  | Decimal.D8 d' => 56 :: chars_of_uint d'
  | Decimal.D9 d' => 57 :: chars_of_uint d'
  end.

(** [str(n)] for an [int] that is not negative. *)
Definition str_of_N (n : N) : list Z := chars_of_uint (N.to_uint n).

Definition is_ascii_digit (c : Z) : Prop := 48 <= c <= 57.

(** The number a string of ASCII digits writes, read from the left. *)
Fixpoint read_digits (acc : Z) (s : list Z) : option Z :=
  match s with
  | [] => Some acc
  | c :: s' =>
      if Text.in_range 48 57 c then read_digits (10 * acc + (c - 48)) s'
      else None
  end.

End Numeral.

Module Handler.

Import Text Re Ledger Parser.

(** The state of the loop over the entries: the open database
    transaction, the count of stored records and the error lines. *)
Record loop_state : Type := Loop {
  loop_db : list expense;
  success_count : N;
  errors : list (list Z)
}.

Definition loop_body (now : timestamp) (user : Z) (st : loop_state)
    (entry : list Z) : loop_state :=
  match parse_entry entry with
  | BadFormat =>
      Loop (loop_db st) (success_count st)
           (errors st ++ [py "«" ++ entry ++ py "» — неверный формат"])
  | BadAmount =>
      Loop (loop_db st) (success_count st)
           (errors st ++ [py "«" ++ entry ++ py "» — ошибка суммы"])
  | Stored category amount =>
      Loop (loop_db st ++ [Expense user category amount now])
           (success_count st + 1) (errors st)
  end.

Definition usage : list Z :=
  py "Пустое сообщение. Пример:" ++ [10] ++ py "<code>45р еда" ++ [10]
  ++ py "14р напитки</code>".

(** [handle_expense]: the database after the message, and the answer
    sent, if any. [now] is the value of [CURRENT_TIMESTAMP] that the
    database gives the inserted rows. *)
Definition handle_expense (now : timestamp) (user : Z) (message_text : list Z)
    (db : list expense) : list expense * option (list Z) :=
  let text := strip message_text in
  if eqb text [] then (db, None)
  else
    let entries := entries_of text in
    match entries with
    | [] => (db, Some usage)
    | _ =>
        let st := fold_left (loop_body now user) entries (Loop db 0 []) in
        let response1 :=
          if (0 <? success_count st)%N
          then [py "✅ Добавлено записей: " ++ Numeral.str_of_N (success_count st)]
          else [] in
        let response2 :=
          match errors st with
          | [] => []
          | _ => [py "❌ Ошибки:" ++ [10] ++ join [10] (errors st)]
          end in
        let response :=
          match response1 ++ response2 with
          | [] => [py "Не удалось распознать ни одной записи."]
          | r => r
          end in
        (loop_db st, Some (join [10] response))
    end.

End Handler.

(** ** The libraries

    The sums of a report are computed by pandas and its chart is drawn
    by matplotlib. Their code is not part of the program, and what they
    return is taken as given: the sum of the amounts of a group, in the
    order of its rows; the sum of the totals of a summary, in its order;
    and whether the chart of a summary is drawn or the drawing raises,
    as it does for a pie without a share (all totals zero). The sums are
    taken to be numbers or the infinity, as the amounts are. *)

Module Library.

Record library : Type := Library {
  group_sum : list Float.float -> Float.float;
  series_sum : list Float.float -> Float.float;
  draws : list (list Z * Float.float) -> bool
}.

End Library.

(** ** Period reports: [generate_report_for_period] *)

Module Report.

Import Text Ledger Library.

(** What the handlers do to the outside: messages to the chat, calls of
    the chart renderer, and operations on the message whose button was
    pressed. *)
Inductive action : Type :=
  | AnswerCallback
  | AnswerAlert (text : list Z)
  | SendMessage (chat_id : Z) (text : list Z)
  | SendCalendar (chat_id : Z) (target_date : date) (mode : string)
  | DeleteMessage
  | EditText (text : list Z)
  | GenerateChart (summary : list (list Z * Float.float))
  | SendPhoto (chat_id : Z) (summary : list (list Z * Float.float))
              (caption : list Z).

(** How a call ends. *)
Inductive ending : Type :=
  | Returns
  | Raises.

(** [ORDER BY created_at]: rows with equal time stamps stay in the order
    of insertion. *)
Fixpoint insert_by_time (r : expense) (l : list expense) : list expense :=
  match l with
  | [] => [r]
  | r' :: l' =>
      if timestamp_leb (created_at r) (created_at r') then r :: l
      else r' :: insert_by_time r l'
  end.

Fixpoint order_by_time (l : list expense) : list expense :=
  match l with
  | [] => []
  | r :: l' => insert_by_time r (order_by_time l')
  end.

(** The query: the rows of the user whose date of creation lies between
    the two dates, both included, as (category, amount) pairs. *)
Definition select_rows (db : list expense) (chat_id : Z) (start_date end_date : date)
    : list (list Z * Float.float) :=
  map (fun r => (category r, amount r))
    (order_by_time
       (List.filter
          (fun r => (user_id r =? chat_id)
                    && date_leb start_date (fst (created_at r))
                    && date_leb (fst (created_at r)) end_date)
          db)).

(** [df.groupby("category")]: one group per category, the groups in
    ascending order of their keys (the default [sort=True]), each
    holding the values of its rows in the order of the rows. *)
Fixpoint group_insert {V : Type} (c : list Z) (a : V)
    (groups : list (list Z * list V)) : list (list Z * list V) :=
  match groups with
  | [] => [(c, [a])]
  | (c', l) :: rest =>
      if eqb c c' then (c', l ++ [a]) :: rest
      else if ltb c c' then (c, [a]) :: groups
      else (c', l) :: group_insert c a rest
  end.

Definition groups_of {V : Type} (rows : list (list Z * V))
    : list (list Z * list V) :=
  fold_left (fun groups r => group_insert (fst r) (snd r) groups) rows [].

(** [df.groupby("category")["amount"].sum()]: the sum of each group. *)
Definition groupby_sum (lib : library) (rows : list (list Z * Float.float))
    : list (list Z * Float.float) :=
  map (fun g => (fst g, group_sum lib (snd g))) (groups_of rows).

(** A stable sort in ascending order of the totals. *)
Fixpoint insert_asc (x : list Z * Float.float)
    (l : list (list Z * Float.float)) : list (list Z * Float.float) :=
  match l with
  | [] => [x]
  | y :: l' =>
      if Float.leb (snd x) (snd y) then x :: l else y :: insert_asc x l'
  end.

Fixpoint sort_asc (l : list (list Z * Float.float))
    : list (list Z * Float.float) :=
  match l with
  | [] => []
  | x :: l' => insert_asc x (sort_asc l')
  end.

(** [.sort_values(ascending=False)]: pandas reverses the values, sorts
    them in ascending order and reverses the outcome. The order in which
    it leaves equal totals is that of the sorting routine of numpy,
    which promises none; the routine is taken here to be stable, and
    what is proved of equal totals is also proved for every other
    choice. *)
Definition sort_values_desc (l : list (list Z * Float.float))
    : list (list Z * Float.float) :=
  rev (sort_asc (rev l)).

(** [f"{x:.2f}"] *)
Definition format_2f (x : Float.float) : list Z :=
  match x with
  | Float.Fin u =>
      let c := Float.cents u in
      Numeral.str_of_N (Z.to_N (c / 100))
      ++ [46; 48 + (c mod 100) / 10; 48 + c mod 10]
  | Float.Inf => py "inf"
  end.

(** [f"{x:.2f}".rstrip('0').rstrip('.')] *)
Definition display (x : Float.float) : list Z :=
  rstrip_char 46 (rstrip_char 48 (format_2f x)).

(** [s.zfill(width)] for a string of digits. *)
Definition zfill (width : nat) (s : list Z) : list Z :=
  repeat 48 (width - length s)%nat ++ s.

(** [str(d)] for a date: [YYYY-MM-DD]. *)
Definition str_of_date (d : date) : list Z :=
  zfill 4 (Numeral.str_of_N (Z.to_N (year d))) ++ [45]
  ++ zfill 2 (Numeral.str_of_N (Z.to_N (month d))) ++ [45]
  ++ zfill 2 (Numeral.str_of_N (Z.to_N (day d))).

Definition summary_of (lib : library) (rows : list (list Z * Float.float))
    : list (list Z * Float.float) :=
  sort_values_desc (groupby_sum lib rows).

(** [summary.sum()] *)
Definition total_of (lib : library) (summary : list (list Z * Float.float))
    : Float.float :=
  series_sum lib (map snd summary).

Definition report_line (item : list Z * Float.float) : list Z :=
  display (snd item) ++ py "р — " ++ fst item ++ [10].

Definition report_text (lib : library) (start_date end_date : date)
    (summary : list (list Z * Float.float)) : list Z :=
  let total := total_of lib summary in
  let period_str :=
    if negb (date_eqb start_date end_date)
    then str_of_date start_date ++ py " – " ++ str_of_date end_date
    else str_of_date start_date in
  py "📊 Расходы за " ++ period_str ++ py ":" ++ [10; 10]
  ++ concat (map report_line summary)
  ++ [10] ++ py "Итого: " ++ display total ++ py "р".

(** [generate_chart]: the call of the renderer, which returns the
    picture or raises. *)
Definition generate_chart (lib : library) (summary : list (list Z * Float.float))
    : list action * ending :=
  ([GenerateChart summary], if draws lib summary then Returns else Raises).

(** [generate_report_for_period]: what is sent for the rows the query
    returned, and how the call ends. When the renderer raises, the text
    of the report has been sent and the picture is not. *)
Definition report_for_rows (lib : library) (chat_id : Z)
    (start_date end_date : date) (rows : list (list Z * Float.float))
    : list action * ending :=
  match rows with
  | [] =>
      ([SendMessage chat_id (py "За указанный период расходов нет.")], Returns)
  | _ =>
      let summary := summary_of lib rows in
      let sent := [SendMessage chat_id (report_text lib start_date end_date summary)] in
      match generate_chart lib summary with
      | (called, Returns) =>
          (sent ++ called
           ++ [SendPhoto chat_id summary (py "📈 Диаграмма расходов")], Returns)
      | (called, Raises) => (sent ++ called, Raises)
      end
  end.

Definition generate_report_for_period (lib : library) (db : list expense)
    (chat_id : Z) (start_date end_date : date) : list action * ending :=
  report_for_rows lib chat_id start_date end_date
    (select_rows db chat_id start_date end_date).

(** *** Reading a report back *)

(** The digits before the point of a displayed amount, and those after
    it when there is a point. *)
Fixpoint split_point (s : list Z) : list Z * option (list Z) :=
  match s with
  | [] => ([], None)
  | c :: s' =>
      if c =? 46 then ([], Some s')
      else let '(i, f) := split_point s' in (c :: i, f)
  end.

(** The number a displayed amount writes, in hundredths; [None] for a
    text that is no such number, as is [inf]. *)
Definition read_display (s : list Z) : option Z :=
  let '(i, f) := split_point s in
  match i, Numeral.read_digits 0 i with
  | _ :: _, Some n =>
      match f with
      | None => Some (100 * n)
      | Some [d1] =>
          if in_range 48 57 d1 then Some (100 * n + 10 * (d1 - 48)) else None
      | Some [d1; d2] =>
          if in_range 48 57 d1 && in_range 48 57 d2
          then Some (100 * n + 10 * (d1 - 48) + (d2 - 48)) else None
      | Some _ => None
      end
  | _, _ => None
  end.

(** The sum of the amounts the lines of a report display. *)
Fixpoint shown_sum (summary : list (list Z * Float.float)) : option Z :=
  match summary with
  | [] => Some 0
  | item :: rest =>
      match read_display (display (snd item)), shown_sum rest with
      | Some c, Some total => Some (c + total)
      | _, _ => None
      end
  end.

(** The amount the total line of a report displays. *)
Definition shown_total (lib : library) (summary : list (list Z * Float.float))
    : option Z :=
  read_display (display (total_of lib summary)).

(** A row as [handle_expense] stores it: a category, and an amount that
    is the float nearest to a number of hundredths. *)
Definition stored_row (r : list Z * Z) : list Z * Float.float :=
  (fst r, Float.of_decimal (snd r) 2).

Definition total_cents (crows : list (list Z * Z)) : Z :=
  fold_right Z.add 0 (map snd crows).

(** *** The orders the properties speak of *)

(** The order of the report: no total is followed by a greater one. *)
Definition descending (x y : list Z * Float.float) : Prop :=
  Float.leb (snd y) (snd x) = true.

Definition ascending (x y : list Z * Float.float) : Prop :=
  Float.leb (snd x) (snd y) = true.

(** The categories of a list of rows or of groups, in its order. *)
Definition keys {V : Type} (groups : list (list Z * V)) : list (list Z) :=
  map fst groups.

Definition key_lt (a b : list Z) : Prop := ltb a b = true.

(** The place of the first row of a category. *)
Fixpoint first_seen (c : list Z) (rows : list (list Z * Float.float))
    : option nat :=
  match rows with
  | [] => None
  | r :: rows' =>
      if eqb (fst r) c then Some O
      else match first_seen c rows' with
           | Some n => Some (S n)
           | None => None
           end
  end.

(** Equal totals stand in [summary] in the order in which their
    categories first appear in [rows]. *)
Definition ties_by_first_seen (rows summary : list (list Z * Float.float))
    : Prop :=
  forall (i j : nat) (x y : list Z * Float.float),
    (i < j)%nat ->
    summary !! i = Some x -> summary !! j = Some y -> snd x = snd y ->
    exists n m : nat,
      first_seen (fst x) rows = Some n /\ first_seen (fst y) rows = Some m
      /\ (n < m)%nat.

End Report.

(** ** Range selection: [handle_calendar] *)

Module Calendar.

Import Text Ledger Library Report.

(** The handler runs on the global dictionary [user_selections], which
    maps a chat to the start date picked in it (the value of the
    dictionary is [{"start": date}], held here as the date), sends
    actions and may raise. *)
Inductive result (A : Type) : Type :=
  | Done (a : A)
  | Raised.
Arguments Done {A} a.
Arguments Raised {A}.

Definition M (A : Type) : Type :=
  gmap Z date -> result A * gmap Z date * list action.

Definition ret {A : Type} (a : A) : M A := fun sel => (Done a, sel, []).

Definition bind {A B : Type} (m : M A) (k : A -> M B) : M B :=
  fun sel =>
    match m sel with
    | (Done a, sel1, log1) =>
        match k a sel1 with
        | (r, sel2, log2) => (r, sel2, log1 ++ log2)
        end
    | (Raised, sel1, log1) => (Raised, sel1, log1)
    end.

Notation "x <- m ;; k" := (bind m (fun x => k))
  (at level 100, m at next level, right associativity).
Notation "m ;;; k" := (bind m (fun _ => k))
  (at level 100, right associativity).

Definition emit (a : action) : M unit := fun sel => (Done tt, sel, [a]).
Definition get : M (gmap Z date) := fun sel => (Done sel, sel, []).
Definition put (sel' : gmap Z date) : M unit := fun _ => (Done tt, sel', []).

(** The call of a function that sends actions and returns or raises:
    what it has sent is sent, and the one who calls raises with it. *)
Definition result_of (e : ending) : result unit :=
  match e with
  | Returns => Done tt
  | Raises => Raised
  end.

Definition await (call : list action * ending) : M unit :=
  fun sel => (result_of (snd call), sel, fst call).

(** A value that raises [ValueError] when it is not there. *)
Definition lift {A : Type} (o : option A) : M A :=
  fun sel =>
    match o with
    | Some a => (Done a, sel, [])
    | None => (Raised, sel, [])
    end.

(** [d + relativedelta(months=k)] for [k] from -12 to 12: the month
    moves, the year follows, the day is cut to the length of the new
    month, and the date must exist. *)
Definition add_months (d : date) (k : Z) : option date :=
  let month1 := month d + k in
  let '(year2, month2) :=
    if 12 <? month1 then (year d + 1, month1 - 12)
    else if month1 <? 1 then (year d - 1, month1 + 12)
    else (year d, month1) in
  mk_date year2 month2 (Z.min (days_in_month year2 month2) (day d)).

(** The data of a pressed button, [callback.data.split("_")] with its
    numbers read: [cal_prev_Y_M_mode], [cal_next_Y_M_mode],
    [cal_day_Y_M_D_mode], [cal_single_Y_M_D], [cal_ignore], or another
    second field. *)
Inductive callback : Type :=
  | CalPrev (year month : Z) (mode : string)
  | CalNext (year month : Z) (mode : string)
  | CalDay (year month day : Z) (mode : string)
  | CalSingle (year month day : Z)
  | CalIgnore
  | CalOther.

(** [send_calendar] sends the keyboard of the month of [target_date];
    its buttons carry the callbacks below. *)
Definition send_calendar (chat_id : Z) (target_date : date) (mode : string)
    : M unit :=
  emit (SendCalendar chat_id target_date mode).

Definition prev_button (target_date : date) (mode : string) : callback :=
  CalPrev (year target_date) (month target_date) mode.

Definition next_button (target_date : date) (mode : string) : callback :=
  CalNext (year target_date) (month target_date) mode.

Definition day_button (target_date : date) (d : Z) (mode : string) : callback :=
  CalDay (year target_date) (month target_date) d mode.

Definition single_button (target_date : date) (mode : string) : option callback :=
  if String.eqb mode "start"
  then Some (CalSingle (year target_date) (month target_date) (day target_date))
  else None.

Definition handle_calendar (lib : library) (db : list expense) (chat_id : Z)
    (data : callback) : M unit :=
  emit AnswerCallback ;;;
  match data with
  | CalPrev year month mode =>
      d <- lift (mk_date year month 1) ;;
      new_date <- lift (add_months d (-1)) ;;
      send_calendar chat_id new_date mode ;;;
      emit DeleteMessage
  | CalNext year month mode =>
      d <- lift (mk_date year month 1) ;;
      new_date <- lift (add_months d 1) ;;
      send_calendar chat_id new_date mode ;;;
      emit DeleteMessage
  | CalDay year month day mode =>
      selected <- lift (mk_date year month day) ;;
      if String.eqb mode "start" then
        user_selections <- get ;;
        put (<[chat_id := selected]> user_selections) ;;;
        emit DeleteMessage ;;;
        send_calendar chat_id selected "end"
      else if String.eqb mode "end" then
        user_selections <- get ;;
        match user_selections !! chat_id with
        | None => emit (EditText (py "Ошибка: начальная дата не выбрана."))
        | Some start =>
            if date_ltb selected start then
              emit (AnswerAlert (py "Конец не может быть раньше начала!"))
            else
              await (generate_report_for_period lib db chat_id start selected) ;;;
              user_selections' <- get ;;
              put (delete chat_id user_selections')
        end
      else ret tt
  | CalSingle year month day =>
      selected <- lift (mk_date year month day) ;;
      await (generate_report_for_period lib db chat_id selected selected)
  | CalIgnore => ret tt
  | CalOther => ret tt
  end.

(** *** What the properties speak of *)

Definition selections_after {A : Type}
    (r : result A * gmap Z date * list action) : gmap Z date :=
  snd (fst r).

Definition log_of {A : Type}
    (r : result A * gmap Z date * list action) : list action :=
  snd r.


(** The alert that the end precedes the start. *)
Definition end_before_start_alert : action :=
  AnswerAlert (py "Конец не может быть раньше начала!").

(** A navigation that went well: the selections are as before, and the
    calendar of [shown] replaces the message of the pressed button. *)
Definition shows (chat_id : Z) (shown : date) (mode : string)
    (sel : gmap Z date) (r : result unit * gmap Z date * list action) : Prop :=
  r = (Done tt, sel, [AnswerCallback; SendCalendar chat_id shown mode; DeleteMessage]).

(** The month before and the month after a month, as the calendar has
    them: December precedes January of the next year. *)
Definition month_before (y m : Z) : Z * Z :=
  if m =? 1 then (y - 1, 12) else (y, m - 1).

Definition month_after (y m : Z) : Z * Z :=
  if m =? 12 then (y + 1, 1) else (y, m + 1).

(** From the calendar of year [y] and month [m], the previous month and
    then the next month of the calendar that came up. *)
Definition prev_then_next_returns (y m : Z) : Prop :=
  forall (lib : library) (db : list expense) (chat_id : Z) (mode : string)
         (sel : gmap Z date),
  exists shown : date,
    shows chat_id shown mode sel
      (handle_calendar lib db chat_id (CalPrev y m mode) sel)
    /\ shows chat_id (Date y m 1) mode sel
         (handle_calendar lib db chat_id (next_button shown mode) sel).

Definition next_then_prev_returns (y m : Z) : Prop :=
  forall (lib : library) (db : list expense) (chat_id : Z) (mode : string)
         (sel : gmap Z date),
  exists shown : date,
    shows chat_id shown mode sel
      (handle_calendar lib db chat_id (CalNext y m mode) sel)
    /\ shows chat_id (Date y m 1) mode sel
         (handle_calendar lib db chat_id (prev_button shown mode) sel).

End Calendar.

(** ** The outcome of a message, entry by entry *)

Module Views.

Import Text Ledger Parser Handler.

(** The rows that the stored outcomes of a message make. *)
Definition rows_of (now : timestamp) (user : Z) (outs : list outcome)
    : list expense :=
  flat_map
    (fun o => match o with
              | Stored category amount => [Expense user category amount now]
              | _ => []
              end)
    outs.

(** The error line of an entry, if it has one. *)
Definition error_line (entry : list Z) : list (list Z) :=
  match parse_entry entry with
  | BadFormat => [py "«" ++ entry ++ py "» — неверный формат"]
  | BadAmount => [py "«" ++ entry ++ py "» — ошибка суммы"]
  | Stored _ _ => []
  end.

(** The answer that reports [count] stored records and the error lines
    [errs]. *)
Definition reply_of (count : N) (errs : list (list Z)) : list Z :=
  join [10]
    ((if (0 <? count)%N
      then [py "✅ Добавлено записей: " ++ Numeral.str_of_N count]
      else [])
     ++ match errs with
        | [] => []
        | _ => [py "❌ Ошибки:" ++ [10] ++ join [10] errs]
        end).

(** The answer of the branch [if not response]. *)
Definition fallback : list Z := py "Не удалось распознать ни одной записи.".

End Views.

(** ** The accuracy of sums

    What a property of the sums of a report asks of the library: that a
    sum of floats is as near to the exact sum as the additions of floats
    allow. *)

Module Accuracy.

Import Float.

(** The exact sum of floats that are finite and not negative, in
    units. *)
Fixpoint exact_sum (l : list float) : option Z :=
  match l with
  | [] => Some 0
  | Fin u :: l' =>
      match exact_sum l' with
      | Some s => if 0 <=? u then Some (u + s) else None
      | None => None
      end
  | Inf :: _ => None
  end.

(** A summation routine is accurate when the sum it returns for [n]
    numbers, none negative, whose exact sum is below [2 ^ E] units is a
    number, and is off by no more than [n] times [2 ^ (E - 53)] units:
    the error of [n] roundings of numbers below [2 ^ (E + 1)]. The sum
    that adds the numbers one after the other meets this bound. *)
Definition accurate (sum : list float -> float) : Prop :=
  forall (l : list float) (s E : Z),
    exact_sum l = Some s -> 53 <= E <= 2096 -> s < 2 ^ E ->
    Z.of_nat (length l) <= 2 ^ 53 ->
    exists u : Z,
      sum l = Fin u /\ 0 <= u
      /\ Z.abs (u - s) <= Z.of_nat (length l) * 2 ^ (E - 53).

End Accuracy.

(** ** A library to compute with

    One behaviour that the libraries may have, for the examples: sums
    that add the numbers one after the other, with one rounding for each
    addition, and a chart that is drawn when the totals are finite and
    not all zero. *)

Module Plain.

Import Float Library.

Definition sum (l : list float) : float := fold_left add l zero.

Definition chart_drawn (summary : list (list Z * float)) : bool :=
  forallb (fun item => match snd item with Fin _ => true | Inf => false end)
          summary
  && existsb (fun item => ltb zero (snd item)) summary.

Definition lib : library := Library sum sum chart_drawn.

End Plain.

(** ** Error bounds of the sums

    A float of [u] units stands for [c] hundredths within [n] errors of
    size [e] when a hundred times [u] is no further from [c] units than
    [n] times [e]. *)

Module Bounds.

(** The size of one error for amounts below [2 ^ B]: fifty times the
    largest rounding error of such an amount, in units. *)
Definition err (B : Z) : Z := 50 * 2 ^ (B + 1021).

Definition approx (e c n u : Z) : Prop :=
  0 <= c /\ 0 <= n /\ 0 <= u
  /\ Z.abs (100 * u - c * 2 ^ 1074) <= n * e.

(** The floats of a list stand for [C] hundredths in all, within [N]
    errors in all. *)
Inductive budget (e : Z) : list Float.float -> Z -> Z -> Prop :=
  | budget_nil : budget e [] 0 0
  | budget_cons (u c n : Z) (l : list Float.float) (N C : Z) :
      approx e c n u -> budget e l N C ->
      budget e (Float.Fin u :: l) (n + N) (c + C).

(** The hundredths and the rows that groups hold. *)
Definition cents_in (groups : list (list Z * list Z)) : Z :=
  fold_right Z.add 0 (map (fun g => fold_right Z.add 0 (snd g)) groups).

Definition rows_in {V : Type} (groups : list (list Z * list V)) : Z :=
  fold_right Z.add 0 (map (fun g => Z.of_nat (length (snd g))) groups).

End Bounds.

(** ** The table of lower-case letters, checked

    What [str.lower] makes of a text is in lower case for good: no code
    point that the table maps to is mapped again. The test below decides
    it range by range. *)

Module Tables.

Import Text.

(** A code point that [str.lower] leaves as it is wherever it stands. *)
Definition lowered (c : Z) : bool :=
  negb (c =? 931) && negb (c =? 304) && (lower_char c =? c).

(** No code point that the range [r] maps to is one that [r'] maps: the
    two stretches lie apart, or both step by two and never meet. *)
Definition apart (r r' : Z * Z * Z * Z) : bool :=
  let '(lo, hi, step, delta) := r in
  let '(lo', hi', step', _) := r' in
  (hi + delta <? lo') || (hi' <? lo + delta)
  || ((step =? 2) && (step' =? 2) && Z.odd (lo + delta - lo')).

(** The range [r] maps no code point to [c]. *)
Definition avoids (r : Z * Z * Z * Z) (c : Z) : bool :=
  let '(lo, hi, _, delta) := r in (c <? lo + delta) || (hi + delta <? c).

Definition closed (table : list (Z * Z * Z * Z)) : bool :=
  forallb (fun r => avoids r 931 && avoids r 304 && forallb (apart r) table)
          table.

End Tables.

(** ** Proof steps *)

Module Tactics.

Import Calendar.

(** Runs the handler down to the tests on its data. *)
Ltac run_handler :=
  unfold handle_calendar, send_calendar, bind, emit, await, lift, get, put, ret;
  simpl.

End Tactics.

(** * Properties *)

(** ** The pattern and the parser *)

Module ParserFacts.

Import Text Re Ledger Parser.

(** A successful greedy repetition has consumed a run of characters of
    its class, at least [min] of them, and the rest of the pattern has
    matched what follows. *)
Lemma greedy_Some {R : Type} (p : Z -> bool) (s : list Z) :
  forall (min : nat) (k : list Z -> list Z -> option R) (x : R),
    greedy p min s k = Some x ->
    exists m r, s = m ++ r /\ forallb p m = true
                /\ (min <= length m)%nat /\ k m r = Some x.
Proof.
  induction s as [|c s IH]; intros min k x H; simpl in H.
  - destruct min; [|discriminate].
    exists [], []. repeat split; auto.
  - destruct (p c) eqn:Hp.
    + destruct (greedy p (Nat.pred min) s (fun m r => k (c :: m) r)) eqn:Hg.
      * injection H as ->.
        apply IH in Hg as (m & r & -> & Hm & Hlen & Hk).
        exists (c :: m), r. simpl. rewrite Hp, Hm.
        repeat split; auto. lia.
      * destruct min; [|discriminate].
        exists [], (c :: s). repeat split; auto.
    + destruct min; [|discriminate].
      exists [], (c :: s). repeat split; auto.
Qed.

Lemma forallb_weaken (p q : Z -> bool) (l : list Z) :
  (forall c : Z, p c = true -> q c = true) ->
  forallb p l = true -> forallb q l = true.
Proof.
  intros Hpq. rewrite !forallb_forall. auto.
Qed.

(** The shape of a matched entry: the amount characters, a gap of
    whitespace and currency letters, the label, and the end of the
    input. *)
Lemma match_entry_shape (s g1 g2 : list Z) :
  match_entry s = Some (g1, g2) ->
  exists gap tl,
    s = g1 ++ gap ++ g2 ++ tl
    /\ forallb is_amount_char g1 = true /\ g1 <> []
    /\ forallb is_gap_char gap = true
    /\ forallb is_any_char g2 = true /\ g2 <> []
    /\ at_end tl = true.
Proof.
  unfold match_entry. intros H.
  apply greedy_Some in H as (m1 & r1 & -> & Hm1 & Hl1 & H).
  apply greedy_Some in H as (m2 & r2 & -> & Hm2 & _ & H).
  apply greedy_Some in H as (m3 & r3 & -> & Hm3 & _ & H).
  apply greedy_Some in H as (m4 & r4 & -> & Hm4 & _ & H).
  apply greedy_Some in H as (m5 & r5 & -> & Hm5 & Hl5 & H).
  destruct (at_end r5) eqn:Hend; [|discriminate].
  injection H as <- <-.
  exists (m2 ++ m3 ++ m4), r5.
  repeat split; auto.
  - now rewrite <- !app_assoc.
  - intros ->. simpl in Hl1. lia.
  - rewrite !forallb_app.
    rewrite (forallb_weaken is_space is_gap_char m2),
      (forallb_weaken is_currency_char is_gap_char m3),
      (forallb_weaken is_space is_gap_char m4); auto;
      unfold is_gap_char; intros c ->; auto using orb_true_r.
  - intros ->. simpl in Hl5. lia.
Qed.

(** An entry that does not start with a digit, a comma or a point does
    not match. *)
Lemma match_entry_first (c : Z) (s : list Z) :
  is_amount_char c = false -> match_entry (c :: s) = None.
Proof.
  intros H. unfold match_entry. simpl. now rewrite H.
Qed.

(** *** The lower case *)

Lemma in_step_spec (r : Z * Z * Z * Z) (c : Z) :
  in_step r c = true ->
  fst (fst (fst r)) <= c <= snd (fst (fst r))
  /\ (c - fst (fst (fst r))) mod snd (fst r) = 0.
Proof.
  destruct r as [[[lo hi] step] delta]. unfold in_step, in_range. simpl.
  rewrite !andb_true_iff, !Z.leb_le, Z.eqb_eq. tauto.
Qed.

(** The table maps a code point by the first range that holds it, and
    leaves it when no range does. *)
Lemma lower_in_spec (table : list (Z * Z * Z * Z)) (c : Z) :
  (lower_in table c = c /\ forall r, In r table -> in_step r c = false)
  \/ (exists r, In r table /\ in_step r c = true
                 /\ lower_in table c = c + snd r).
Proof.
  induction table as [|r table IH]; simpl.
  - left. split; [reflexivity|]. intros r [].
  - destruct (in_step r c) eqn:Hr.
    + right. exists r. auto.
    + destruct IH as [[H1 H2] | (r' & Hin & Hs & H)].
      * left. split; [exact H1|]. intros r' [<- | Hin]; auto.
      * right. exists r'. auto.
Qed.

Lemma lower_in_none (table : list (Z * Z * Z * Z)) (c : Z) :
  (forall r, In r table -> in_step r c = false) -> lower_in table c = c.
Proof.
  induction table as [|r table IH]; simpl; intros H; [reflexivity|].
  rewrite (H r) by now left. apply IH. intros r' Hin. apply H. now right.
Qed.

Lemma apart_sound (r r' : Z * Z * Z * Z) (c : Z) :
  Tables.apart r r' = true -> in_step r c = true ->
  in_step r' (c + snd r) = false.
Proof.
  intros Ha Hc. apply in_step_spec in Hc as [Hc Hm].
  destruct r as [[[lo hi] step] delta], r' as [[[lo' hi'] step'] delta'].
  unfold Tables.apart in Ha. unfold in_step, in_range. simpl in *.
  apply orb_true_iff in Ha as [Ha | Ha];
    [apply orb_true_iff in Ha as [Ha | Ha]|].
  - apply Z.ltb_lt in Ha.
    destruct (Z.leb_spec lo' (c + delta)); [lia|reflexivity].
  - apply Z.ltb_lt in Ha.
    destruct (Z.leb_spec (c + delta) hi'); [lia|].
    now rewrite andb_false_r.
  - apply andb_true_iff in Ha as [Ha Hodd].
    apply andb_true_iff in Ha as [H2 H2'].
    apply Z.eqb_eq in H2, H2'. subst step step'.
    apply andb_false_iff. right. apply Z.eqb_neq.
    pose proof (Zmod_odd (lo + delta - lo')) as Ho. rewrite Hodd in Ho.
    replace (c + delta - lo') with ((c - lo) + (lo + delta - lo')) by ring.
    rewrite Z.add_mod, Hm, Ho by lia. discriminate.
Qed.

Lemma avoids_sound (r : Z * Z * Z * Z) (c t : Z) :
  Tables.avoids r t = true -> in_step r c = true -> c + snd r <> t.
Proof.
  intros Ha Hc. apply in_step_spec in Hc as [Hc _].
  destruct r as [[[lo hi] step] delta]. unfold Tables.avoids in Ha.
  simpl in *. apply orb_true_iff in Ha as [Ha | Ha]; apply Z.ltb_lt in Ha; lia.
Qed.

Lemma lower_table_closed : Tables.closed lower_table = true.
Proof.
  vm_compute. reflexivity.
Qed.

(** The lower case of a code point is in lower case for good. *)
Lemma lower_char_lowered (c : Z) :
  c <> 304 -> Tables.lowered (lower_char c) = true.
Proof.
  intros H304. unfold Tables.lowered, lower_char.
  pose proof lower_table_closed as Hclosed.
  unfold Tables.closed in Hclosed. rewrite forallb_forall in Hclosed.
  destruct (lower_in_spec lower_table c) as [[Hc Hnone] | (r & Hin & Hs & Hc)];
    rewrite Hc.
  - rewrite Hc, Z.eqb_refl, andb_true_r.
    apply andb_true_iff. split; apply negb_true_iff, Z.eqb_neq; [|exact H304].
    intros ->. vm_compute in Hc. discriminate.
  - specialize (Hclosed r Hin).
    apply andb_true_iff in Hclosed as [Hav Hap].
    apply andb_true_iff in Hav as [Hsigma Hdot].
    rewrite forallb_forall in Hap.
    rewrite lower_in_none.
    + rewrite Z.eqb_refl, andb_true_r.
      apply andb_true_iff. split; apply negb_true_iff, Z.eqb_neq.
      * now apply (avoids_sound r c 931).
      * now apply (avoids_sound r c 304).
    + intros r' Hin'. apply apart_sound; auto.
Qed.

Lemma lower_at_lowered (before : list Z) (c : Z) (after : list Z) :
  forallb Tables.lowered (lower_at before c after) = true.
Proof.
  unfold lower_at.
  destruct (Z.eqb_spec c 931).
  - destruct (cased_before before && no_cased_after after);
      vm_compute; reflexivity.
  - destruct (Z.eqb_spec c 304); [vm_compute; reflexivity|].
    simpl. now rewrite lower_char_lowered.
Qed.

Lemma lower_go_lowered (s : list Z) :
  forall before : list Z, forallb Tables.lowered (lower_go before s) = true.
Proof.
  induction s as [|c s IH]; intros before; simpl; [reflexivity|].
  now rewrite forallb_app, lower_at_lowered, IH.
Qed.

(** Whatever [str.lower] returns is in lower case. *)
Lemma lower_lowered (s : list Z) : forallb Tables.lowered (lower s) = true.
Proof.
  apply lower_go_lowered.
Qed.

Lemma lower_go_fixed (s : list Z) :
  forallb Tables.lowered s = true ->
  forall before : list Z, lower_go before s = s.
Proof.
  induction s as [|c s IH]; simpl; intros H before; [reflexivity|].
  apply andb_true_iff in H as [Hc Hs].
  rewrite IH by exact Hs.
  unfold Tables.lowered in Hc.
  apply andb_true_iff in Hc as [Hc Hl].
  apply andb_true_iff in Hc as [H931 H304].
  apply negb_true_iff in H931, H304. apply Z.eqb_eq in Hl.
  unfold lower_at. now rewrite H931, H304, Hl.
Qed.

(** A text in lower case is left as it is. *)
Lemma lower_fixed (s : list Z) :
  forallb Tables.lowered s = true -> lower s = s.
Proof.
  intros H. now apply lower_go_fixed.
Qed.

(** A first character that is neither of the two special letters is
    lowered by the table. *)
Lemma lower_cons (c : Z) (s : list Z) :
  c <> 931 -> c <> 304 -> lower (c :: s) = lower_char c :: lower_go [c] s.
Proof.
  intros H1 H2. unfold lower. simpl. unfold lower_at.
  apply Z.eqb_neq in H1, H2. now rewrite H1, H2.
Qed.

(** What [parse_entry] stores comes from a match whose amount converts
    to a number above zero. *)
Lemma parse_entry_Stored (entry c : list Z) (a : Float.float) :
  parse_entry entry = Stored c a ->
  exists g1 g2 x,
    match_entry (lower entry) = Some (g1, g2)
    /\ float_of_str (replace_char 44 46 g1) = Some x
    /\ Float.leb x Float.zero = false
    /\ c = strip g2 /\ a = Float.round2 x.
Proof.
  unfold parse_entry. intros H.
  destruct (match_entry (lower entry)) as [[g1 g2]|]; [|discriminate].
  destruct (float_of_str (replace_char 44 46 g1)) as [x|] eqn:Hf; [|discriminate].
  destruct (Float.leb x Float.zero) eqn:Hx; [discriminate|].
  injection H as <- <-. exists g1, g2, x. auto.
Qed.

(** The pieces of a text hold no separator: no line feed, no comma, no
    semicolon. *)
Lemma split_go_no_separator (s : list Z) :
  forall (in_run : bool) (cur piece : list Z),
    forallb (fun c => negb (is_separator c)) cur = true ->
    In piece (split_go in_run cur s) ->
    forallb (fun c => negb (is_separator c)) piece = true.
Proof.
  induction s as [|c s IH]; intros in_run cur piece Hcur Hin; simpl in Hin.
  - destruct Hin as [<- | []].
    rewrite forallb_forall in *. intros x Hx. apply Hcur.
    now apply in_rev.
  - destruct (is_separator c) eqn:Hc.
    + destruct in_run.
      * eapply IH; [|exact Hin]. reflexivity.
      * destruct Hin as [<- | Hin].
        -- rewrite forallb_forall in *. intros x Hx. apply Hcur.
           now apply in_rev.
        -- eapply IH; [|exact Hin]. reflexivity.
    + eapply IH; [|exact Hin]. simpl. now rewrite Hc.
Qed.

Lemma lstrip_forallb (p : Z -> bool) (s : list Z) :
  forallb p s = true -> forallb p (lstrip s) = true.
Proof.
  induction s as [|c s IH]; simpl; [auto|].
  intros H. apply andb_true_iff in H as [Hc Hs].
  destruct (is_space c); [auto|]. simpl. now rewrite Hc, Hs.
Qed.

Lemma forallb_rev (p : Z -> bool) (s : list Z) :
  forallb p (rev s) = forallb p s.
Proof.
  induction s as [|c s IH]; simpl; [reflexivity|].
  rewrite forallb_app, IH. simpl. rewrite andb_true_r. apply andb_comm.
Qed.

Lemma strip_forallb (p : Z -> bool) (s : list Z) :
  forallb p s = true -> forallb p (strip s) = true.
Proof.
  intros H. unfold strip, rstrip.
  rewrite forallb_rev. apply lstrip_forallb.
  rewrite forallb_rev. now apply lstrip_forallb.
Qed.

(** No entry of a message holds a comma: the commas have all been used
    up to split the text. *)
Lemma entries_hold_no_separator (text entry : list Z) :
  In entry (entries_of text) ->
  forallb (fun c => negb (is_separator c)) entry = true.
Proof.
  unfold entries_of. intros H.
  apply in_map_iff in H as (piece & <- & H).
  apply List.filter_In in H as [H _].
  apply strip_forallb.
  eapply split_go_no_separator; [|exact H]. reflexivity.
Qed.

End ParserFacts.

Module ParserProps.

Import Text Re Ledger Parser Handler ParserFacts.

(** C1. A message that holds the single line "45,50 еда" does not give
    one record of 45.50: the text is split at the comma first, the
    piece "45" has no label and is refused, and the piece "50 еда" is
    stored with the amount 50. *)
Theorem comma_amount_is_split :
  outcomes (py "45,50 еда")
    = [BadFormat; Stored (py "еда") (Float.of_decimal 50 0)]
  /\ forall (now : timestamp) (user : Z),
       fst (handle_expense now user (py "45,50 еда") [])
         = [Expense user (py "еда") (Float.of_decimal 50 0) now].
Proof.
  split; [|intros now user]; vm_compute; reflexivity.
Qed.

(** C4, as stated, fails: the line "-5р еда" is not reported with the
    reason of a bad amount. *)
Lemma minus_five_is_not_bad_amount :
  outcomes (py "-5р еда") <> [BadAmount].
Proof.
  vm_compute. discriminate.
Qed.

(** C4, amended. The line "-5р еда" yields exactly one error, with the
    reason of a bad format, as does every entry that starts with a minus
    sign: the pattern of the amount has no sign. An entry that matches
    and whose amount converts to zero, as "0 еда" does, is an error with
    the reason of a bad amount, and whatever is stored comes from an
    amount strictly above zero. *)
Theorem nonpositive_amount_is_error :
  outcomes (py "-5р еда") = [BadFormat]
  /\ outcomes (py "0 еда") = [BadAmount]
  /\ (forall rest : list Z, parse_entry (45 :: rest) = BadFormat)
  /\ (forall (entry g1 g2 : list Z) (x : Float.float),
        match_entry (lower entry) = Some (g1, g2) ->
        float_of_str (replace_char 44 46 g1) = Some x ->
        Float.leb x Float.zero = true ->
        parse_entry entry = BadAmount)
  /\ (forall (entry c : list Z) (a : Float.float),
        parse_entry entry = Stored c a ->
        exists g1 g2 x,
          match_entry (lower entry) = Some (g1, g2)
          /\ float_of_str (replace_char 44 46 g1) = Some x
          /\ Float.ltb Float.zero x = true
          /\ a = Float.round2 x).
Proof.
  split; [vm_compute; reflexivity|].
  split; [vm_compute; reflexivity|].
  split.
  { intros rest. unfold parse_entry.
    rewrite lower_cons by lia.
    replace (lower_char 45) with 45 by (vm_compute; reflexivity).
    now rewrite match_entry_first. }
  split.
  { intros entry g1 g2 x Hm Hf Hx. unfold parse_entry.
    now rewrite Hm, Hf, Hx. }
  intros entry c a H.
  apply parse_entry_Stored in H as (g1 & g2 & x & Hm & Hf & Hx & _ & Ha).
  exists g1, g2, x. unfold Float.ltb. rewrite Hx. auto.
Qed.

End ParserProps.

(** ** Grouping and sorting *)

Module ReportFacts.

Import Text Ledger Library Report.

Lemma leb_total (x y : Float.float) :
  Float.leb x y = false -> Float.leb y x = true.
Proof.
  destruct x, y; simpl; try discriminate; auto.
  intros H. apply Z.leb_gt in H. apply Z.leb_le. lia.
Qed.

Lemma leb_trans (x y z : Float.float) :
  Float.leb x y = true -> Float.leb y z = true -> Float.leb x z = true.
Proof.
  destruct x, y, z; simpl; try discriminate; auto.
  rewrite !Z.leb_le. lia.
Qed.

Lemma insert_asc_perm (x : list Z * Float.float) (l : list (list Z * Float.float)) :
  insert_asc x l ≡ₚ x :: l.
Proof.
  induction l as [|y l IH]; simpl; [reflexivity|].
  destruct (Float.leb (snd x) (snd y)); [reflexivity|].
  rewrite IH. apply perm_swap.
Qed.

Lemma sort_asc_perm (l : list (list Z * Float.float)) : sort_asc l ≡ₚ l.
Proof.
  induction l as [|x l IH]; simpl; [reflexivity|].
  now rewrite insert_asc_perm, IH.
Qed.

Lemma insert_asc_sorted (x : list Z * Float.float) (l : list (list Z * Float.float)) :
  StronglySorted ascending l -> StronglySorted ascending (insert_asc x l).
Proof.
  induction l as [|y l IH]; simpl; intros Hl.
  - repeat constructor.
  - apply StronglySorted_cons in Hl as [Hy Hl].
    destruct (Float.leb (snd x) (snd y)) eqn:Hxy.
    + apply StronglySorted_cons. split.
      * constructor; [exact Hxy|].
        eapply Forall_impl; [exact Hy|].
        intros z Hz. unfold ascending in *. eapply leb_trans; eauto.
      * apply StronglySorted_cons. auto.
    + apply StronglySorted_cons. split; [|auto].
      rewrite insert_asc_perm. constructor; [|exact Hy].
      now apply leb_total.
Qed.

Lemma sort_asc_sorted (l : list (list Z * Float.float)) :
  StronglySorted ascending (sort_asc l).
Proof.
  induction l as [|x l IH]; simpl; [constructor|].
  now apply insert_asc_sorted.
Qed.

Lemma sorted_rev (l : list (list Z * Float.float)) :
  StronglySorted ascending l -> StronglySorted descending (rev l).
Proof.
  induction 1 as [|x l Hl IH Hx]; simpl; [constructor|].
  apply StronglySorted_app. split; [|split; [exact IH | repeat constructor]].
  intros x1 x2 H1 H2.
  apply list_elem_of_singleton in H2 as ->.
  apply list_elem_of_In, in_rev, list_elem_of_In in H1.
  rewrite Forall_forall in Hx. now apply Hx.
Qed.

Lemma sort_values_desc_sorted (l : list (list Z * Float.float)) :
  StronglySorted descending (sort_values_desc l).
Proof.
  apply sorted_rev, sort_asc_sorted.
Qed.

Lemma rev_perm (l : list (list Z * Float.float)) : rev l ≡ₚ l.
Proof.
  symmetry. apply Permutation_rev.
Qed.

Lemma sort_values_desc_perm (l : list (list Z * Float.float)) :
  sort_values_desc l ≡ₚ l.
Proof.
  unfold sort_values_desc. now rewrite rev_perm, sort_asc_perm, rev_perm.
Qed.

(** The comparison of strings is a strict total order. *)
Lemma ltb_trans (a : list Z) :
  forall b c : list Z, ltb a b = true -> ltb b c = true -> ltb a c = true.
Proof.
  induction a as [|x a IH]; intros [|y b] [|z c]; simpl; try discriminate; auto.
  rewrite !orb_true_iff, !andb_true_iff, !Z.ltb_lt, !Z.eqb_eq.
  intros [H1 | [H1 H1']] [H2 | [H2 H2']]; try (left; lia).
  right. split; [lia|]. eauto.
Qed.

Lemma ltb_connex (a : list Z) :
  forall b : list Z, eqb a b = false -> ltb a b = false -> ltb b a = true.
Proof.
  unfold eqb.
  induction a as [|x a IH]; intros [|y b]; simpl; try discriminate; auto.
  rewrite bool_decide_eq_false, orb_false_iff, andb_false_iff,
    orb_true_iff, andb_true_iff, !Z.ltb_ge, !Z.ltb_lt, Z.eqb_neq, Z.eqb_eq.
  intros Hne [Hxy H].
  destruct (Z.eq_dec x y) as [->|Hn]; [|left; lia].
  right. split; [reflexivity|].
  destruct H as [H|H]; [lia|].
  apply IH; [|exact H].
  apply bool_decide_eq_false. congruence.
Qed.

Lemma eqb_eq (a b : list Z) : eqb a b = true <-> a = b.
Proof.
  unfold eqb. apply bool_decide_eq_true.
Qed.

(** Adding a row to the groups adds its category to the keys, if it is
    not one yet, and leaves the keys in ascending order. *)
Lemma group_insert_keys {V : Type} (c : list Z) (a : V)
    (groups : list (list Z * list V)) (k : list Z) :
  k ∈ keys (group_insert c a groups) <-> k = c \/ k ∈ keys groups.
Proof.
  unfold keys.
  induction groups as [|[c' l] rest IH]; simpl.
  - rewrite list_elem_of_singleton, elem_of_nil. tauto.
  - destruct (eqb c c') eqn:Heq; simpl.
    + apply eqb_eq in Heq as ->. rewrite !elem_of_cons. tauto.
    + destruct (ltb c c'); simpl.
      * rewrite !elem_of_cons. simpl. tauto.
      * rewrite !elem_of_cons, IH. tauto.
Qed.

Lemma group_insert_sorted {V : Type} (c : list Z) (a : V)
    (groups : list (list Z * list V)) :
  StronglySorted key_lt (keys groups) ->
  StronglySorted key_lt (keys (group_insert c a groups)).
Proof.
  unfold keys.
  induction groups as [|[c' l] rest IH]; simpl; intros H.
  - repeat constructor.
  - destruct (eqb c c') eqn:Heq; simpl; [exact H|].
    destruct (ltb c c') eqn:Hlt; simpl.
    + apply StronglySorted_cons. split; [|exact H].
      apply StronglySorted_cons in H as [Hc' _].
      constructor; [exact Hlt|].
      eapply Forall_impl; [exact Hc'|].
      intros k Hk. unfold key_lt in *. eapply ltb_trans; eauto.
    + apply StronglySorted_cons in H as [Hc' H].
      apply StronglySorted_cons. split; [|auto].
      apply Forall_forall. intros k Hk.
      apply (group_insert_keys c a rest k) in Hk as [-> | Hk].
      * now apply ltb_connex.
      * rewrite Forall_forall in Hc'. now apply Hc'.
Qed.

Lemma fold_group_insert_keys {V : Type} (rows : list (list Z * V)) :
  forall (groups : list (list Z * list V)) (k : list Z),
    k ∈ keys (fold_left (fun g r => group_insert (fst r) (snd r) g) rows groups)
    <-> k ∈ keys rows \/ k ∈ keys groups.
Proof.
  induction rows as [|[c a] rows IH]; intros groups k; simpl.
  - unfold keys at 2. simpl. rewrite elem_of_nil. tauto.
  - rewrite IH, group_insert_keys. unfold keys at 3. simpl.
    rewrite elem_of_cons. fold (keys rows). tauto.
Qed.

Lemma fold_group_insert_sorted {V : Type} (rows : list (list Z * V)) :
  forall groups : list (list Z * list V),
    StronglySorted key_lt (keys groups) ->
    StronglySorted key_lt
      (keys (fold_left (fun g r => group_insert (fst r) (snd r) g) rows groups)).
Proof.
  induction rows as [|[c a] rows IH]; intros groups H; simpl; [exact H|].
  now apply IH, group_insert_sorted.
Qed.

(** The sums of the groups stand under the keys of the groups. *)
Lemma groupby_sum_keys_groups (lib : library) (rows : list (list Z * Float.float)) :
  keys (groupby_sum lib rows) = keys (groups_of rows).
Proof.
  unfold groupby_sum, keys. rewrite map_map. reflexivity.
Qed.

(** The groups are the categories of the rows, each once, in ascending
    order: the exact strings, and nothing of the order of the rows. *)
Lemma groupby_sum_keys (lib : library) (rows : list (list Z * Float.float))
    (k : list Z) :
  k ∈ keys (groupby_sum lib rows) <-> k ∈ keys rows.
Proof.
  rewrite groupby_sum_keys_groups. unfold groups_of.
  rewrite fold_group_insert_keys.
  unfold keys at 3. simpl. rewrite elem_of_nil. tauto.
Qed.

Lemma groupby_sum_sorted (lib : library) (rows : list (list Z * Float.float)) :
  StronglySorted key_lt (keys (groupby_sum lib rows)).
Proof.
  rewrite groupby_sum_keys_groups.
  apply fold_group_insert_sorted. constructor.
Qed.

Lemma groupby_sum_nonempty (lib : library) (rows : list (list Z * Float.float)) :
  rows <> [] -> groupby_sum lib rows <> [].
Proof.
  destruct rows as [|[c a] rows]; [congruence|].
  intros _ H.
  assert (Hc : c ∈ keys (groupby_sum lib ((c, a) :: rows))).
  { apply groupby_sum_keys. unfold keys. simpl. apply elem_of_cons. now left. }
  rewrite H in Hc. unfold keys in Hc. simpl in Hc.
  now apply elem_of_nil in Hc.
Qed.

Lemma summary_of_nonempty (lib : library) (rows : list (list Z * Float.float)) :
  rows <> [] -> summary_of lib rows <> [].
Proof.
  intros Hr Hs. apply (groupby_sum_nonempty lib rows Hr).
  apply Permutation_nil_r. rewrite <- Hs.
  unfold summary_of. symmetry. apply sort_values_desc_perm.
Qed.

(** The groups of two rows of different categories. *)
Lemma groups_of_two {V : Type} (c1 c2 : list Z) (a1 a2 : V) :
  ltb c1 c2 = true ->
  groups_of [(c1, a1); (c2, a2)] = [(c1, [a1]); (c2, [a2])]
  /\ groups_of [(c2, a2); (c1, a1)] = [(c1, [a1]); (c2, [a2])].
Proof.
  intros Hlt.
  assert (H12 : eqb c1 c2 = false).
  { apply bool_decide_eq_false. intros ->.
    clear -Hlt. induction c2 as [|x c IH]; simpl in Hlt; [discriminate|].
    rewrite Z.ltb_irrefl, Z.eqb_refl in Hlt. auto. }
  assert (H21 : eqb c2 c1 = false).
  { apply bool_decide_eq_false. intros E. symmetry in E.
    apply bool_decide_eq_false in H12. contradiction. }
  assert (Hgt : ltb c2 c1 = false).
  { destruct (ltb c2 c1) eqn:H; [|reflexivity].
    pose proof (ltb_trans _ _ _ Hlt H) as Hirr.
    clear -Hirr. induction c1 as [|x c IH]; simpl in Hirr; [discriminate|].
    rewrite Z.ltb_irrefl, Z.eqb_refl in Hirr. auto. }
  unfold groups_of. simpl. rewrite H12, H21, Hlt, Hgt. auto.
Qed.

End ReportFacts.

Module ReportProps.

Import Text Ledger Library Report ReportFacts.

(** The report of two rows of 5 in the categories "a" and "b", in
    either order of the rows: "a" before "b", with the same total. *)
Lemma summary_of_a_and_b (lib : library) :
  summary_of lib [(py "a", Float.of_decimal 5 0); (py "b", Float.of_decimal 5 0)]
    = [(py "a", group_sum lib [Float.of_decimal 5 0]);
       (py "b", group_sum lib [Float.of_decimal 5 0])]
  /\ summary_of lib [(py "b", Float.of_decimal 5 0); (py "a", Float.of_decimal 5 0)]
       = [(py "a", group_sum lib [Float.of_decimal 5 0]);
          (py "b", group_sum lib [Float.of_decimal 5 0])].
Proof.
  destruct (groups_of_two (py "a") (py "b") (Float.of_decimal 5 0)
              (Float.of_decimal 5 0) eq_refl) as [H1 H2].
  unfold summary_of, groupby_sum. rewrite H1, H2.
  cbn [map fst snd].
  set (x := group_sum lib [Float.of_decimal 5 0]).
  unfold sort_values_desc. cbn [rev app sort_asc insert_asc snd].
  assert (Hx : Float.leb x x = true)
    by (destruct x; simpl; auto using Z.leb_refl).
  rewrite Hx. auto.
Qed.

(** C3, as stated, fails: of two categories with the same total, the
    one seen second in the rows stands first in the report, whatever
    the library makes of the sums. *)
Lemma equal_totals_not_in_first_seen_order :
  ~ exists lib : library,
      ties_by_first_seen
        [(py "b", Float.of_decimal 5 0); (py "a", Float.of_decimal 5 0)]
        (summary_of lib
           [(py "b", Float.of_decimal 5 0); (py "a", Float.of_decimal 5 0)]).
Proof.
  intros [lib H].
  rewrite (proj2 (summary_of_a_and_b lib)) in H.
  destruct (H 0%nat 1%nat _ _ ltac:(lia) eq_refl eq_refl eq_refl)
    as (n & m & Hn & Hm & Hlt).
  cbn [fst] in Hn, Hm. vm_compute in Hn, Hm.
  injection Hn as <-. injection Hm as <-. lia.
Qed.

(** The grouping step forgets the order of the rows: whatever the
    sorting routine does with equal totals, it is given the same groups
    for both orders of these two rows, and a rearrangement of them
    cannot follow the first appearance in both. *)
Lemma no_tie_break_follows_first_seen (lib : library)
    (srt : list (list Z * Float.float) -> list (list Z * Float.float)) :
  (forall l, srt l ≡ₚ l) ->
  ~ (ties_by_first_seen
       [(py "a", Float.of_decimal 5 0); (py "b", Float.of_decimal 5 0)]
       (srt (groupby_sum lib
               [(py "a", Float.of_decimal 5 0); (py "b", Float.of_decimal 5 0)]))
     /\ ties_by_first_seen
          [(py "b", Float.of_decimal 5 0); (py "a", Float.of_decimal 5 0)]
          (srt (groupby_sum lib
                  [(py "b", Float.of_decimal 5 0); (py "a", Float.of_decimal 5 0)]))).
Proof.
  intros Hperm [H1 H2].
  destruct (groups_of_two (py "a") (py "b") (Float.of_decimal 5 0)
              (Float.of_decimal 5 0) eq_refl) as [Hg1 Hg2].
  unfold groupby_sum in H1, H2. rewrite Hg1 in H1. rewrite Hg2 in H2.
  cbn [map fst snd] in H1, H2. clear Hg1 Hg2.
  set (x := group_sum lib [Float.of_decimal 5 0]) in *. clearbody x.
  specialize (Hperm [(py "a", x); (py "b", x)]).
  symmetry in Hperm.
  apply Permutation_length_2_inv in Hperm as [Hs | Hs]; rewrite Hs in *.
  - destruct (H2 0%nat 1%nat _ _ ltac:(lia) eq_refl eq_refl eq_refl)
      as (n & m & Hn & Hm & Hlt).
    cbn [fst] in Hn, Hm. vm_compute in Hn, Hm.
    injection Hn as <-. injection Hm as <-. lia.
  - destruct (H1 0%nat 1%nat _ _ ltac:(lia) eq_refl eq_refl eq_refl)
      as (n & m & Hn & Hm & Hlt).
    cbn [fst] in Hn, Hm. vm_compute in Hn, Hm.
    injection Hn as <-. injection Hm as <-. lia.
Qed.

(** C3, amended. The pairs of a report are in descending order of their
    totals, and they are the groups of the rows: one per category, which
    the grouping step forms in ascending order of the categories, so
    that nothing of the order of the rows is left for equal totals to
    follow. *)
Theorem summary_sorted_by_total (lib : library)
    (rows : list (list Z * Float.float)) :
  StronglySorted descending (summary_of lib rows)
  /\ summary_of lib rows ≡ₚ groupby_sum lib rows
  /\ StronglySorted key_lt (keys (groupby_sum lib rows))
  /\ (forall k : list Z, k ∈ keys (groupby_sum lib rows) <-> k ∈ keys rows).
Proof.
  split; [apply sort_values_desc_sorted|].
  split; [apply sort_values_desc_perm|].
  split; [apply groupby_sum_sorted|].
  intros k. apply groupby_sum_keys.
Qed.

(** C5, as stated, fails: the label "Еда" is stored as "еда". *)
Lemma category_case_not_preserved :
  Parser.parse_entry (py "45 Еда")
    = Parser.Stored (py "еда") (Float.of_decimal 45 0)
  /\ py "еда" <> strip (py "Еда").
Proof.
  split; [vm_compute; reflexivity|]. vm_compute. discriminate.
Qed.

(** C5, amended. The category of a stored record is the label in lower
    case. The entry is lowered as a whole and then matched: the lowered
    entry is an amount, a gap of whitespace and currency letters, the
    second group of the pattern and the end of the line, and the
    category is that second group without the whitespace around it. It
    is in lower case: lowering it again changes nothing. The grouping
    step keeps the stored strings as they are: its keys are exactly the
    categories of the rows. *)
Theorem category_is_lowercased (entry c : list Z) (a : Float.float) :
  Parser.parse_entry entry = Parser.Stored c a ->
  (exists g1 g2 gap tl : list Z,
     Re.match_entry (lower entry) = Some (g1, g2)
     /\ lower entry = g1 ++ gap ++ g2 ++ tl
     /\ forallb Re.is_amount_char g1 = true /\ g1 <> []
     /\ forallb Re.is_gap_char gap = true
     /\ Re.at_end tl = true
     /\ c = strip g2)
  /\ lower c = c
  /\ (forall (lib : library) (rows : list (list Z * Float.float)) (k : list Z),
        k ∈ keys (groupby_sum lib rows) <-> k ∈ keys rows).
Proof.
  intros H.
  apply ParserFacts.parse_entry_Stored in H
    as (g1 & g2 & x & Hm & _ & _ & -> & _).
  pose proof (ParserFacts.match_entry_shape _ _ _ Hm)
    as (gap & tl & Hs & Hg1 & Hne & Hgap & _ & _ & Hend).
  split; [|split].
  - exists g1, g2, gap, tl. auto 10.
  - apply ParserFacts.lower_fixed, ParserFacts.strip_forallb.
    pose proof (ParserFacts.lower_lowered entry) as Hl.
    rewrite Hs, !forallb_app, !andb_true_iff in Hl. tauto.
  - intros lib rows k. apply groupby_sum_keys.
Qed.

(** The entry "45 Еда". *)
Lemma category_is_lowercased_witness :
  (exists g1 g2 gap tl : list Z,
     Re.match_entry (lower (py "45 Еда")) = Some (g1, g2)
     /\ lower (py "45 Еда") = g1 ++ gap ++ g2 ++ tl
     /\ forallb Re.is_amount_char g1 = true /\ g1 <> []
     /\ forallb Re.is_gap_char gap = true
     /\ Re.at_end tl = true
     /\ py "еда" = strip g2)
  /\ lower (py "еда") = py "еда"
  /\ (forall (lib : library) (rows : list (list Z * Float.float)) (k : list Z),
        k ∈ keys (groupby_sum lib rows) <-> k ∈ keys rows).
Proof.
  apply (category_is_lowercased (py "45 Еда") (py "еда") (Float.of_decimal 45 0)).
  vm_compute. reflexivity.
Defined.

(** C9. When the query returns no row, the only thing sent is the notice
    that the period has no expenses, and the call returns; and whatever
    the rows, the chart renderer is never called with an empty summary,
    nor is an empty chart sent. *)
Theorem empty_period_sends_notice_only
    (lib : library) (db : list expense) (chat_id : Z)
    (start_date end_date : date) :
  (select_rows db chat_id start_date end_date = [] ->
   generate_report_for_period lib db chat_id start_date end_date
     = ([SendMessage chat_id (py "За указанный период расходов нет.")],
        Returns))
  /\ (forall summary : list (list Z * Float.float),
        GenerateChart summary
          ∈ fst (generate_report_for_period lib db chat_id start_date end_date) ->
        summary <> [])
  /\ (forall (chat : Z) (summary : list (list Z * Float.float)) (caption : list Z),
        SendPhoto chat summary caption
          ∈ fst (generate_report_for_period lib db chat_id start_date end_date) ->
        summary <> []).
Proof.
  unfold generate_report_for_period, report_for_rows, generate_chart.
  destruct (select_rows db chat_id start_date end_date) as [|r rows] eqn:Hrows.
  - split; [reflexivity|].
    split; intros; simpl in *; repeat match goal with
    | H : _ ∈ _ :: _ |- _ => apply elem_of_cons in H as [H | H]; [discriminate|]
    | H : _ ∈ [] |- _ => now apply elem_of_nil in H
    end.
  - split; [discriminate|].
    assert (Hne : summary_of lib (r :: rows) <> [])
      by (apply summary_of_nonempty; discriminate).
    destruct (draws lib (summary_of lib (r :: rows)));
    split; intros; simpl in *; repeat match goal with
    | H : _ ∈ _ :: _ |- _ => apply elem_of_cons in H as [H | H]
    | H : _ ∈ [] |- _ => now apply elem_of_nil in H
    | H : GenerateChart _ = GenerateChart _ |- _ => injection H as ->
    | H : SendPhoto _ _ _ = SendPhoto _ _ _ |- _ => injection H as -> -> ->
    | H : _ = _ |- _ => discriminate H
    end; exact Hne.
Qed.

(** The report of a month of an empty database. *)
Lemma empty_period_witness :
  generate_report_for_period Plain.lib [] 7 (Date 2024 3 1) (Date 2024 3 31)
    = ([SendMessage 7 (py "За указанный период расходов нет.")], Returns).
Proof.
  apply (proj1 (empty_period_sends_notice_only Plain.lib [] 7
                  (Date 2024 3 1) (Date 2024 3 31))).
  reflexivity.
Defined.

End ReportProps.

(** ** Range selection *)

Module CalendarFacts.

Import Text Ledger Library Report Calendar Tactics.

Lemma days_in_month_ge (y m : Z) : 28 <= days_in_month y m.
Proof.
  unfold days_in_month.
  repeat match goal with
  | |- context [if ?b then _ else _] => destruct b
  end; lia.
Qed.

Lemma mk_date_ok (y m d : Z) :
  1 <= y <= 9999 -> 1 <= m <= 12 -> 1 <= d <= days_in_month y m ->
  mk_date y m d = Some (Date y m d).
Proof.
  intros Hy Hm Hd. unfold mk_date.
  replace (1 <=? y) with true by (symmetry; apply Z.leb_le; lia).
  replace (y <=? 9999) with true by (symmetry; apply Z.leb_le; lia).
  replace (1 <=? m) with true by (symmetry; apply Z.leb_le; lia).
  replace (m <=? 12) with true by (symmetry; apply Z.leb_le; lia).
  replace (1 <=? d) with true by (symmetry; apply Z.leb_le; lia).
  replace (d <=? days_in_month y m) with true by (symmetry; apply Z.leb_le; lia).
  reflexivity.
Qed.

Lemma mk_date_first (y m : Z) :
  1 <= y <= 9999 -> 1 <= m <= 12 -> mk_date y m 1 = Some (Date y m 1).
Proof.
  intros Hy Hm. apply mk_date_ok; auto.
  pose proof (days_in_month_ge y m). lia.
Qed.

Lemma mk_date_None_year (y m d : Z) :
  y < 1 \/ 9999 < y -> mk_date y m d = None.
Proof.
  intros H. unfold mk_date.
  destruct (Z.leb_spec 1 y), (Z.leb_spec y 9999); simpl; try reflexivity; lia.
Qed.

Lemma add_months_prev (y m : Z) :
  1 <= m <= 12 ->
  add_months (Date y m 1) (-1)
    = mk_date (fst (month_before y m)) (snd (month_before y m)) 1.
Proof.
  intros Hm. unfold add_months, month_before. simpl.
  destruct (Z.ltb_spec 12 (m + -1)); [lia|].
  destruct (Z.ltb_spec (m + -1) 1), (Z.eqb_spec m 1); try lia; simpl.
  - rewrite Z.min_r; [f_equal; lia|].
    pose proof (days_in_month_ge (y - 1) (m + -1 + 12)). lia.
  - rewrite Z.min_r; [f_equal; lia|].
    pose proof (days_in_month_ge y (m + -1)). lia.
Qed.

Lemma add_months_next (y m : Z) :
  1 <= m <= 12 ->
  add_months (Date y m 1) 1
    = mk_date (fst (month_after y m)) (snd (month_after y m)) 1.
Proof.
  intros Hm. unfold add_months, month_after. simpl.
  destruct (Z.ltb_spec 12 (m + 1)), (Z.eqb_spec m 12); try lia; simpl.
  - rewrite Z.min_r; [f_equal; lia|].
    pose proof (days_in_month_ge (y + 1) (m + 1 - 12)). lia.
  - destruct (Z.ltb_spec (m + 1) 1); [lia|].
    rewrite Z.min_r; [f_equal; lia|].
    pose proof (days_in_month_ge y (m + 1)). lia.
Qed.

Lemma handle_prev (lib : library) (db : list expense) (chat_id y m : Z)
    (mode : string) (sel : gmap Z date) (d new_date : date) :
  mk_date y m 1 = Some d -> add_months d (-1) = Some new_date ->
  shows chat_id new_date mode sel
    (handle_calendar lib db chat_id (CalPrev y m mode) sel).
Proof.
  intros Hd Hn. unfold shows. run_handler. rewrite Hd, Hn. reflexivity.
Qed.

Lemma handle_next (lib : library) (db : list expense) (chat_id y m : Z)
    (mode : string) (sel : gmap Z date) (d new_date : date) :
  mk_date y m 1 = Some d -> add_months d 1 = Some new_date ->
  shows chat_id new_date mode sel
    (handle_calendar lib db chat_id (CalNext y m mode) sel).
Proof.
  intros Hd Hn. unfold shows. run_handler. rewrite Hd, Hn. reflexivity.
Qed.

(** Navigation leaves the selections as they are, whether it shows a
    calendar or raises. *)
Lemma navigation_keeps_selections (lib : library) (db : list expense)
    (chat_id y m : Z) (mode : string) (sel : gmap Z date) :
  selections_after (handle_calendar lib db chat_id (CalPrev y m mode) sel) = sel
  /\ selections_after (handle_calendar lib db chat_id (CalNext y m mode) sel) = sel.
Proof.
  unfold selections_after. run_handler.
  destruct (mk_date y m 1) as [d|]; simpl; [|auto].
  destruct (add_months d (-1)), (add_months d 1); simpl; auto.
Qed.


Lemma handle_day_start (lib : library) (db : list expense) (chat_id y m d : Z)
    (sel : gmap Z date) (selected : date) :
  mk_date y m d = Some selected ->
  handle_calendar lib db chat_id (CalDay y m d "start") sel
    = (Done tt, <[chat_id := selected]> sel,
       [AnswerCallback; DeleteMessage; SendCalendar chat_id selected "end"]).
Proof.
  intros Hd. run_handler. rewrite Hd. reflexivity.
Qed.


Lemma handle_day_end_rejected (lib : library) (db : list expense)
    (chat_id y m d : Z) (sel : gmap Z date) (selected start : date) :
  mk_date y m d = Some selected -> sel !! chat_id = Some start ->
  date_ltb selected start = true ->
  handle_calendar lib db chat_id (CalDay y m d "end") sel
    = (Done tt, sel, [AnswerCallback; end_before_start_alert]).
Proof.
  intros Hd Hs Hlt. run_handler. rewrite Hd. simpl. rewrite Hs, Hlt. reflexivity.
Qed.

(** An accepted day of the end calendar: the report is called, and the
    selection of the chat is removed when the call has returned. *)
Lemma handle_day_end_accepted (lib : library) (db : list expense)
    (chat_id y m d : Z) (sel : gmap Z date) (selected start : date) :
  mk_date y m d = Some selected -> sel !! chat_id = Some start ->
  date_ltb selected start = false ->
  handle_calendar lib db chat_id (CalDay y m d "end") sel
    = match snd (generate_report_for_period lib db chat_id start selected) with
      | Returns =>
          (Done tt, delete chat_id sel,
           AnswerCallback
             :: fst (generate_report_for_period lib db chat_id start selected))
      | Raises =>
          (Raised, sel,
           AnswerCallback
             :: fst (generate_report_for_period lib db chat_id start selected))
      end.
Proof.
  intros Hd Hs Hlt. run_handler. rewrite Hd. simpl. rewrite Hs, Hlt. simpl.
  destruct (snd (generate_report_for_period lib db chat_id start selected));
    simpl; now rewrite ?app_nil_r.
Qed.

Lemma handle_single (lib : library) (db : list expense) (chat_id y m d : Z)
    (sel : gmap Z date) (selected : date) :
  mk_date y m d = Some selected ->
  handle_calendar lib db chat_id (CalSingle y m d) sel
    = (result_of (snd (generate_report_for_period lib db chat_id selected selected)),
       sel,
       AnswerCallback
         :: fst (generate_report_for_period lib db chat_id selected selected)).
Proof.
  intros Hd. run_handler. rewrite Hd. simpl.
  now destruct (snd (generate_report_for_period lib db chat_id selected selected)).
Qed.



End CalendarFacts.

Module CalendarProps.

Import Text Ledger Library Report Calendar CalendarFacts Tactics.




(** C10. The confirmation of a single day calls for the report of that
    day and leaves the selections as they are, for every content of
    theirs and however the report ends: a start date picked earlier in
    the chat is still there afterwards. *)
Theorem single_day_keeps_selection
    (lib : library) (db : list expense) (chat_id y m d : Z) (sel : gmap Z date) :
  selections_after (handle_calendar lib db chat_id (CalSingle y m d) sel) = sel
  /\ (forall start_date : date,
        sel !! chat_id = Some start_date ->
        selections_after (handle_calendar lib db chat_id (CalSingle y m d) sel)
          !! chat_id = Some start_date)
  /\ (forall selected : date,
        mk_date y m d = Some selected ->
        handle_calendar lib db chat_id (CalSingle y m d) sel
          = (result_of
               (snd (generate_report_for_period lib db chat_id selected selected)),
             sel,
             AnswerCallback
               :: fst (generate_report_for_period lib db chat_id
                         selected selected))).
Proof.
  assert (Hsel : selections_after
                   (handle_calendar lib db chat_id (CalSingle y m d) sel) = sel).
  { destruct (mk_date y m d) as [selected|] eqn:Hd.
    - now rewrite (handle_single lib db chat_id y m d sel selected Hd).
    - unfold selections_after. run_handler. now rewrite Hd. }
  split; [exact Hsel|].
  split; [intros start_date Hs; now rewrite Hsel|].
  intros selected Hd. now apply handle_single.
Qed.

(** A chat with the start date 2024-03-10, and the single day
    2024-03-12. *)
Lemma single_day_keeps_selection_witness :
  selections_after
    (handle_calendar Plain.lib [] 7 (CalSingle 2024 3 12) {[ 7 := Date 2024 3 10 ]})
    !! 7 = Some (Date 2024 3 10).
Proof.
  apply (proj1 (proj2 (single_day_keeps_selection Plain.lib [] 7 2024 3 12
                         {[ 7 := Date 2024 3 10 ]}))).
  apply lookup_singleton_eq.
Defined.




(** C7, as stated, fails: January of the year 1 is a month a calendar
    can show, and it has no previous month; the handler raises. *)
Lemma first_month_has_no_previous :
  mk_date 1 1 1 = Some (Date 1 1 1)
  /\ (forall lib : library,
        handle_calendar lib [] 7 (CalPrev 1 1 "start") ∅
          = (Raised, ∅, [AnswerCallback]))
  /\ ~ prev_then_next_returns 1 1.
Proof.
  split; [reflexivity|]. split; [reflexivity|].
  intros H. destruct (H Plain.lib [] 7 "start"%string ∅) as (shown & Hs & _).
  unfold shows in Hs. discriminate Hs.
Qed.

(** C7, amended. From every month of the years 1 to 9999 but the first,
    the previous month and then the next month lead back to it; from
    every month but the last, the next month and then the previous month
    do. The month before a January is the December of the year before,
    the month after a December the January of the year after. No
    navigation changes the selections. *)
Theorem navigation_round_trip (y m : Z) :
  1 <= y <= 9999 -> 1 <= m <= 12 ->
  ((y, m) <> (1, 1) -> prev_then_next_returns y m)
  /\ ((y, m) <> (9999, 12) -> next_then_prev_returns y m)
  /\ (forall (lib : library) (db : list expense) (chat_id : Z) (mode : string)
             (sel : gmap Z date),
        (2 <= y ->
         shows chat_id (Date (y - 1) 12 1) mode sel
           (handle_calendar lib db chat_id (CalPrev y 1 mode) sel))
        /\ (y <= 9998 ->
            shows chat_id (Date (y + 1) 1 1) mode sel
              (handle_calendar lib db chat_id (CalNext y 12 mode) sel))
        /\ selections_after (handle_calendar lib db chat_id (CalPrev y m mode) sel) = sel
        /\ selections_after (handle_calendar lib db chat_id (CalNext y m mode) sel) = sel).
Proof.
  intros Hy Hm.
  split; [|split].
  - intros Hne lib db chat_id mode sel.
    assert (Hrange : 1 <= fst (month_before y m) <= 9999
                     /\ 1 <= snd (month_before y m) <= 12).
    { unfold month_before. destruct (Z.eqb_spec m 1); simpl; [|lia].
      subst m. assert (y <> 1) by congruence. lia. }
    destruct Hrange as [Hy' Hm'].
    exists (Date (fst (month_before y m)) (snd (month_before y m)) 1).
    split.
    + eapply handle_prev; [now apply mk_date_first|].
      rewrite add_months_prev by lia. now apply mk_date_first.
    + unfold next_button. simpl.
      eapply handle_next; [now apply mk_date_first|].
      rewrite add_months_next by lia.
      replace (month_after (fst (month_before y m)) (snd (month_before y m)))
        with (y, m); [now apply mk_date_first|].
      unfold month_after, month_before.
      destruct (Z.eqb_spec m 1); simpl; [subst; f_equal; lia|].
      destruct (Z.eqb_spec (m - 1) 12); [lia|]. f_equal; lia.
  - intros Hne lib db chat_id mode sel.
    assert (Hrange : 1 <= fst (month_after y m) <= 9999
                     /\ 1 <= snd (month_after y m) <= 12).
    { unfold month_after. destruct (Z.eqb_spec m 12); simpl; [|lia].
      subst m. assert (y <> 9999) by congruence. lia. }
    destruct Hrange as [Hy' Hm'].
    exists (Date (fst (month_after y m)) (snd (month_after y m)) 1).
    split.
    + eapply handle_next; [now apply mk_date_first|].
      rewrite add_months_next by lia. now apply mk_date_first.
    + unfold prev_button. simpl.
      eapply handle_prev; [now apply mk_date_first|].
      rewrite add_months_prev by lia.
      replace (month_before (fst (month_after y m)) (snd (month_after y m)))
        with (y, m); [now apply mk_date_first|].
      unfold month_after, month_before.
      destruct (Z.eqb_spec m 12); simpl; [subst; f_equal; lia|].
      destruct (Z.eqb_spec (m + 1) 1); [lia|]. f_equal; lia.
  - intros lib db chat_id mode sel.
    split; [|split; [|apply navigation_keeps_selections]].
    + intros Hy2. eapply handle_prev; [apply mk_date_first; lia|].
      rewrite add_months_prev by lia. apply mk_date_first; simpl; lia.
    + intros Hy2. eapply handle_next; [apply mk_date_first; lia|].
      rewrite add_months_next by lia. apply mk_date_first; simpl; lia.
Qed.

(** January 2024. *)
Lemma navigation_round_trip_witness :
  ((2024, 1) <> (1, 1) -> prev_then_next_returns 2024 1)
  /\ ((2024, 1) <> (9999, 12) -> next_then_prev_returns 2024 1)
  /\ (forall (lib : library) (db : list expense) (chat_id : Z) (mode : string)
             (sel : gmap Z date),
        (2 <= 2024 ->
         shows chat_id (Date (2024 - 1) 12 1) mode sel
           (handle_calendar lib db chat_id (CalPrev 2024 1 mode) sel))
        /\ (2024 <= 9998 ->
            shows chat_id (Date (2024 + 1) 1 1) mode sel
              (handle_calendar lib db chat_id (CalNext 2024 12 mode) sel))
        /\ selections_after (handle_calendar lib db chat_id (CalPrev 2024 1 mode) sel) = sel
        /\ selections_after (handle_calendar lib db chat_id (CalNext 2024 1 mode) sel) = sel).
Proof.
  apply (navigation_round_trip 2024 1); lia.
Defined.

End CalendarProps.

(** ** Rounding *)

Module FloatFacts.

Import Float.

(** The nearest integer is within half of the quotient. *)
Lemma half_even_err (num den : Z) :
  0 < den -> 2 * Z.abs (half_even num den * den - num) <= den.
Proof.
  intros Hden. unfold half_even.
  pose proof (Z.div_mod num den ltac:(lia)) as Hdm.
  pose proof (Z.mod_pos_bound num den Hden) as Hr.
  generalize dependent (num mod den). generalize dependent (num / den).
  intros q r Hdm Hr.
  destruct (Z.ltb_spec (2 * r) den); [nia|].
  destruct (Z.eqb_spec (2 * r) den); simpl.
  - destruct (Z.even q); nia.
  - nia.
Qed.

Lemma half_even_bounds (num den : Z) :
  0 < den -> 0 <= num ->
  num / den <= half_even num den <= num / den + 1.
Proof.
  intros Hden Hnum. unfold half_even.
  destruct (2 * (num mod den) <? den); [lia|].
  destruct ((2 * (num mod den) =? den) && Z.even (num / den)); lia.
Qed.

(** A quotient that is nearer than a half to an integer rounds to it. *)
Lemma half_even_near (num den c : Z) :
  0 < den -> 2 * Z.abs (num - c * den) < den -> half_even num den = c.
Proof.
  intros Hden Hnear. unfold half_even.
  pose proof (Z.div_mod num den ltac:(lia)) as Hdm.
  pose proof (Z.mod_pos_bound num den Hden) as Hr.
  generalize dependent (num mod den). generalize dependent (num / den).
  intros q r Hdm Hr.
  assert (Hq : q = c \/ (q = c - 1 /\ den < 2 * r)) by nia.
  destruct Hq as [-> | [-> Hhalf]].
  - destruct (Z.ltb_spec (2 * r) den); [reflexivity|nia].
  - destruct (Z.ltb_spec (2 * r) den); [lia|].
    destruct (Z.eqb_spec (2 * r) den); [lia|]. simpl. lia.
Qed.

(** Rounding a quotient below [2^K] units: the outcome is finite, does
    not exceed [2^K], and is within half a step of the last binade. *)
Lemma round_units_err (num den K : Z) :
  0 <= num -> 0 < den -> 53 <= K <= 2097 -> num < den * 2 ^ K ->
  exists u : Z,
    round_units num den = Fin u /\ 0 <= u <= 2 ^ K
    /\ 2 * Z.abs (u * den - num) <= den * 2 ^ (K - 53).
Proof.
  intros Hnum Hden HK Hlt. unfold round_units.
  set (s := Z.max 0 (Z.log2 (num / den) + 1 - 53)).
  assert (Hq0 : 0 <= num / den < 2 ^ K).
  { split; [apply Z.div_pos; lia|].
    apply Z.div_lt_upper_bound; lia. }
  assert (Hs : 0 <= s <= K - 53).
  { unfold s. destruct (Z.eq_dec (num / den) 0) as [-> | Hne].
    - simpl. lia.
    - assert (Z.log2 (num / den) < K) by (apply Z.log2_lt_pow2; lia). lia. }
  clearbody s.
  assert (Hp : 0 < 2 ^ s) by (apply Z.pow_pos_nonneg; lia).
  assert (Hd' : 0 < den * 2 ^ s) by nia.
  assert (Hsplit : 2 ^ K = 2 ^ (K - s) * 2 ^ s).
  { rewrite <- Z.pow_add_r by lia. f_equal. lia. }
  assert (Hmono : 2 ^ s <= 2 ^ (K - 53)) by (apply Z.pow_le_mono_r; lia).
  pose proof (half_even_err num (den * 2 ^ s) Hd') as Herr.
  pose proof (half_even_bounds num (den * 2 ^ s) Hd' Hnum) as Hb.
  assert (Hqs : 0 <= num / (den * 2 ^ s) < 2 ^ (K - s)).
  { split; [apply Z.div_pos; lia|].
    apply Z.div_lt_upper_bound; [lia|]. rewrite Hsplit in Hlt. nia. }
  set (h := half_even num (den * 2 ^ s)) in *. clearbody h.
  assert (Hu : 0 <= h * 2 ^ s <= 2 ^ K) by (rewrite Hsplit; nia).
  assert (Htop : 2 ^ K < 2 ^ 2098) by (apply Z.pow_lt_mono_r; lia).
  destruct (Z.ltb_spec (h * 2 ^ s) (2 ^ 2098)); [|lia].
  exists (h * 2 ^ s). split; [reflexivity|]. split; [exact Hu|].
  replace (h * 2 ^ s * den - num) with (h * (den * 2 ^ s) - num) by ring.
  nia.
Qed.

End FloatFacts.

Module BoundFacts.

Import Float Bounds Accuracy FloatFacts.

Lemma approx_mono (e c n n' u : Z) :
  0 <= e -> approx e c n u -> n <= n' -> approx e c n' u.
Proof.
  unfold approx. intros He (Hc & Hn & Hu & H) Hle.
  repeat split; first [lia | nia].
Qed.

(** The scale of the units against the scale of the rounding errors of
    the amounts below [2 ^ B]. *)
Lemma scales (B : Z) :
  0 <= B ->
  2 ^ 1074 = 2 ^ 53 * 2 ^ 1021
  /\ 2 ^ (B + 1074) = 2 ^ B * 2 ^ 1074
  /\ 2 ^ (B + 1074 - 53) = 2 ^ B * 2 ^ 1021
  /\ err B = 50 * (2 ^ B * 2 ^ 1021)
  /\ 0 < 2 ^ B /\ 0 < 2 ^ 1021.
Proof.
  intros HB. unfold err.
  rewrite <- !Z.pow_add_r by lia.
  repeat split; try (f_equal; lia); apply Z.pow_pos_nonneg; lia.
Qed.

(** Reading a number of hundredths below [2 ^ B] costs one error. *)
Lemma of_decimal_approx (B c : Z) :
  0 <= B <= 1000 -> 0 <= c < 100 * 2 ^ B ->
  exists u : Z, of_decimal c 2 = Fin u /\ approx (err B) c 1 u.
Proof.
  intros HB Hc. unfold of_decimal.
  destruct (scales B ltac:(lia)) as (HU & HK & HE & He & HP & HQ).
  assert (H0 : 0 <= c * 2 ^ 1074) by (apply Z.mul_nonneg_nonneg; lia).
  assert (Hup : 0 < 2 ^ 1074) by (apply Z.pow_pos_nonneg; lia).
  assert (Hlt : c * 2 ^ 1074 < 10 ^ 2 * 2 ^ (B + 1074)).
  { rewrite HK. change (10 ^ 2) with 100. nia. }
  destruct (round_units_err (c * 2 ^ 1074) (10 ^ 2) (B + 1074)
              H0 ltac:(lia) ltac:(lia) Hlt)
    as (u & Hr & Hu & Herr).
  exists u. split; [exact Hr|].
  unfold approx. rewrite HE in Herr. rewrite He.
  change (10 ^ 2) with 100 in Herr.
  repeat split; lia.
Qed.

(** The exact sum of floats that stand for hundredths. *)
Lemma exact_budget (e : Z) (l : list float) (N C : Z) :
  budget e l N C ->
  exists s : Z,
    exact_sum l = Some s /\ 0 <= s /\ 0 <= N /\ 0 <= C
    /\ Z.abs (100 * s - C * 2 ^ 1074) <= N * e.
Proof.
  induction 1 as [|u c n l N C Ha _ (s & Hs & Hs0 & HN & HC & Herr)].
  - exists 0. simpl. repeat split; lia.
  - unfold approx in Ha. destruct Ha as (Hc & Hn & Hu & Ha).
    exists (u + s). simpl. rewrite Hs.
    destruct (Z.leb_spec 0 u); [|lia].
    repeat split; lia.
Qed.

(** An accurate sum of [n] floats that stand for hundredths below
    [2 ^ B] costs two errors a float. *)
Lemma sum_approx (sum : list float -> float) (B : Z) (l : list float) (N C : Z) :
  accurate sum -> budget (err B) l N C ->
  0 <= B <= 1000 -> C < 100 * 2 ^ B -> 50 * N * 2 ^ B < 2 ^ 53 ->
  Z.of_nat (length l) <= 2 ^ 53 ->
  exists u : Z,
    sum l = Fin u /\ approx (err B) C (N + 2 * Z.of_nat (length l)) u.
Proof.
  intros Hacc Hb HB HC HN Hlen.
  destruct (scales B ltac:(lia)) as (HU & HK & HE & He & HP & HQ).
  destruct (exact_budget _ _ _ _ Hb) as (s & Hs & Hs0 & HN0 & HC0 & Herr).
  rewrite He in Herr.
  assert (Hlt : s < 2 ^ (B + 1074)).
  { rewrite HK, HU.
    set (P := 2 ^ B) in *. set (Q := 2 ^ 1021) in *. clearbody P Q.
    rewrite HU in Herr.
    change (2 ^ 53) with 9007199254740992 in *. nia. }
  destruct (Hacc l s (B + 1074) Hs ltac:(lia) Hlt Hlen)
    as (u & Hu & Hu0 & Hus).
  exists u. split; [exact Hu|].
  rewrite HE in Hus. unfold approx. rewrite He.
  repeat split; lia.
Qed.

(** Within errors that add up to less than half a hundredth, the
    hundredths are read off exactly. *)
Lemma cents_approx (B c n u : Z) :
  approx (err B) c n u -> 0 <= B -> 100 * n * 2 ^ B < 2 ^ 53 -> cents u = c.
Proof.
  unfold approx, cents. intros (Hc & Hn & Hu & H) HB Hle.
  destruct (scales B HB) as (HU & _ & _ & He & HP & HQ).
  apply half_even_near.
  - apply Z.pow_pos_nonneg; lia.
  - replace (u * 100 - c * 2 ^ 1074) with (100 * u - c * 2 ^ 1074) by ring.
    rewrite He in H. rewrite HU in *.
    set (P := 2 ^ B) in *. set (Q := 2 ^ 1021) in *. clearbody P Q.
    change (2 ^ 53) with 9007199254740992 in *. nia.
Qed.

Lemma exact_sum_nonneg (l : list float) (s : Z) :
  exact_sum l = Some s -> 0 <= s.
Proof.
  revert s. induction l as [|[u|] l IH]; simpl; intros s H.
  - injection H as <-. lia.
  - destruct (exact_sum l) as [s'|]; [|discriminate].
    destruct (Z.leb_spec 0 u); [|discriminate].
    injection H as <-. specialize (IH s' eq_refl). lia.
  - discriminate.
Qed.

(** Adding floats one after the other: each addition is off by no more
    than the rounding of a number below [2 ^ (E + 1)]. *)
Lemma fold_add_accurate (l : list float) :
  forall (s E u0 x0 k : Z),
    exact_sum l = Some s -> 53 <= E <= 2096 ->
    0 <= u0 -> 0 <= k -> Z.abs (u0 - x0) <= k * 2 ^ (E - 53) ->
    x0 + s < 2 ^ E -> k + Z.of_nat (length l) <= 2 ^ 53 ->
    exists u : Z,
      fold_left add l (Fin u0) = Fin u /\ 0 <= u
      /\ Z.abs (u - (x0 + s)) <= (k + Z.of_nat (length l)) * 2 ^ (E - 53).
Proof.
  induction l as [|[a|] l IH]; intros s E u0 x0 k Hs HE Hu0 Hk Herr Hlt Hlen;
    simpl in Hs.
  - injection Hs as <-. exists u0. simpl.
    rewrite !Z.add_0_r. auto.
  - destruct (exact_sum l) as [s'|] eqn:Hs'; [|discriminate].
    destruct (Z.leb_spec 0 a) as [Ha|]; [|discriminate].
    injection Hs as <-.
    pose proof (exact_sum_nonneg l s' Hs') as Hs0.
    assert (Hh : 0 < 2 ^ (E - 53)) by (apply Z.pow_pos_nonneg; lia).
    assert (HE1 : 2 ^ E = 2 ^ 53 * 2 ^ (E - 53)).
    { rewrite <- Z.pow_add_r by lia. f_equal. lia. }
    assert (HE2 : 2 ^ (E + 1) = 2 * 2 ^ E).
    { rewrite Z.pow_add_r by lia. lia. }
    assert (HE3 : 2 ^ (E + 1 - 53) = 2 * 2 ^ (E - 53)).
    { replace (E + 1 - 53) with (E - 53 + 1) by lia.
      rewrite Z.pow_add_r by lia. lia. }
    simpl length in *. rewrite Nat2Z.inj_succ in *.
    assert (Hnum : u0 + a < 1 * 2 ^ (E + 1)).
    { rewrite HE2, HE1 in *.
      set (h := 2 ^ (E - 53)) in *. clearbody h.
      change (2 ^ 53) with 9007199254740992 in *. nia. }
    destruct (round_units_err (u0 + a) 1 (E + 1) ltac:(lia) ltac:(lia)
                ltac:(lia) Hnum)
      as (u1 & Hr & Hu1 & Herr1).
    rewrite HE3 in Herr1.
    destruct (IH s' E u1 (x0 + a) (k + 1) eq_refl HE ltac:(lia) ltac:(lia))
      as (u & Hf & Hu & Hfin); [nia | lia | lia |].
    exists u. cbn [fold_left]. unfold add at 2. rewrite Hr.
    split; [exact Hf|]. split; [exact Hu|].
    replace (x0 + (a + s')) with (x0 + a + s') by ring.
    replace (k + Z.succ (Z.of_nat (length l)))
      with (k + 1 + Z.of_nat (length l)) by lia.
    exact Hfin.
  - discriminate.
Qed.

(** Sums that add the numbers one after the other are accurate. *)
Lemma plain_sum_accurate : accurate Plain.sum.
Proof.
  intros l s E Hs HE Hlt Hlen. unfold Plain.sum, zero.
  destruct (fold_add_accurate l s E 0 0 0 Hs HE ltac:(lia) ltac:(lia))
    as (u & Hf & Hu & Herr); [simpl; lia | lia | lia |].
  exists u. split; [exact Hf|]. split; [exact Hu|].
  now rewrite !Z.add_0_l in Herr.
Qed.

End BoundFacts.

(** ** The amounts the parser stores *)

Module StoredFacts.

Import Text Float Parser FloatFacts.

Lemma half_even_nonneg (num den : Z) :
  0 <= num -> 0 < den -> 0 <= half_even num den.
Proof.
  intros Hnum Hden.
  pose proof (half_even_bounds num den Hden Hnum).
  pose proof (Z.div_pos num den Hnum Hden). lia.
Qed.

Lemma round_units_nonneg (num den : Z) :
  0 <= num -> 0 < den ->
  round_units num den = Inf \/ exists u : Z, round_units num den = Fin u /\ 0 <= u.
Proof.
  intros Hnum Hden. unfold round_units.
  set (s := Z.max 0 (Z.log2 (num / den) + 1 - 53)).
  assert (Hp : 0 < 2 ^ s) by (apply Z.pow_pos_nonneg; lia).
  destruct (half_even num (den * 2 ^ s) * 2 ^ s <? 2 ^ 2098); [|now left].
  right. eexists. split; [reflexivity|].
  apply Z.mul_nonneg_nonneg; [|lia].
  apply half_even_nonneg; [lia|nia].
Qed.

Lemma cents_nonneg (u : Z) : 0 <= u -> 0 <= cents u.
Proof.
  intros Hu. unfold cents. apply half_even_nonneg; [lia|].
  apply Z.pow_pos_nonneg; lia.
Qed.

Lemma digit_in_range (blocks : list Z) (c d : Z) :
  digit_in blocks c = Some d -> 0 <= d <= 9.
Proof.
  induction blocks as [|b blocks IH]; simpl; [discriminate|].
  unfold in_range.
  destruct (Z.leb_spec b c), (Z.leb_spec c (b + 9)); simpl; auto.
  intros [= <-]. lia.
Qed.

Lemma scan_decimal_nonneg (s : list Z) :
  forall (seen_point any_digit : bool) (n k n' k' : Z),
    0 <= n -> 0 <= k ->
    scan_decimal s seen_point any_digit n k = Some (n', k') ->
    0 <= n' /\ 0 <= k'.
Proof.
  induction s as [|c s IH]; intros sp ad n k n' k' Hn Hk H; simpl in H.
  - destruct ad; [|discriminate]. injection H as <- <-. lia.
  - destruct (digit_value c) as [d|] eqn:Hd.
    + apply digit_in_range in Hd.
      eapply IH; [| |exact H]; [lia|destruct sp; lia].
    + destruct ((c =? 46) && negb sp); [|discriminate].
      eapply IH; [| |exact H]; lia.
Qed.

(** What [float] reads from digits is a number that is not negative, or
    the infinity that a number too large rounds to. *)
Lemma float_of_str_nonneg (s : list Z) (x : float) :
  float_of_str s = Some x -> x = Inf \/ exists u : Z, x = Fin u /\ 0 <= u.
Proof.
  unfold float_of_str, of_decimal.
  destruct (scan_decimal s false false 0 0) as [[n k]|] eqn:Hs; [|discriminate].
  intros [= <-].
  apply scan_decimal_nonneg in Hs as [Hn Hk]; try lia.
  apply round_units_nonneg.
  - apply Z.mul_nonneg_nonneg; [lia|]. apply Z.pow_nonneg. lia.
  - apply Z.pow_pos_nonneg; lia.
Qed.

(** A stored amount is the float nearest to a whole number of
    hundredths, or the infinity. *)
Lemma stored_amount_form (entry c : list Z) (a : float) :
  parse_entry entry = Stored c a ->
  a = Inf \/ exists k : Z, 0 <= k /\ a = of_decimal k 2.
Proof.
  intros H.
  apply ParserFacts.parse_entry_Stored in H as (g1 & g2 & x & _ & Hf & _ & _ & ->).
  apply float_of_str_nonneg in Hf as [-> | (u & -> & Hu)]; [now left|].
  right. exists (cents u). split; [now apply cents_nonneg|reflexivity].
Qed.

End StoredFacts.

(** ** Writing an amount and reading it back *)

Module NumeralFacts.

Import Text Numeral Report.

Lemma read_digits_acc (d : Decimal.uint) :
  forall p : positive,
    read_digits (Zpos p) (chars_of_uint d) = Some (Zpos (Pos.of_uint_acc d p)).
Proof.
  induction d; intros p; simpl; try reflexivity;
    unfold in_range; simpl;
    match goal with
    | |- read_digits ?a _ = Some (Zpos (Pos.of_uint_acc _ ?q)) =>
        replace a with (Zpos q) by lia
    end; apply IHd.
Qed.

Lemma read_digits_uint (d : Decimal.uint) :
  read_digits 0 (chars_of_uint d) = Some (Z.of_N (Pos.of_uint d)).
Proof.
  induction d; simpl; try reflexivity; try exact IHd;
    unfold in_range; simpl; apply read_digits_acc.
Qed.

Lemma read_str_of_N (n : N) : read_digits 0 (str_of_N n) = Some (Z.of_N n).
Proof.
  unfold str_of_N. rewrite read_digits_uint.
  change (Pos.of_uint (N.to_uint n)) with (N.of_uint (N.to_uint n)).
  now rewrite DecimalN.Unsigned.of_to.
Qed.

Lemma chars_of_uint_digits (d : Decimal.uint) :
  Forall is_ascii_digit (chars_of_uint d).
Proof.
  induction d; simpl; constructor; auto; unfold is_ascii_digit; lia.
Qed.

Lemma str_of_N_digits (n : N) : Forall is_ascii_digit (str_of_N n).
Proof.
  apply chars_of_uint_digits.
Qed.

Lemma str_of_N_nonempty (n : N) : str_of_N n <> [].
Proof.
  unfold str_of_N. destruct n as [|p]; simpl; [discriminate|].
  pose proof (DecimalPos.Unsigned.to_uint_nonnil p) as H.
  destruct (Pos.to_uint p); simpl; congruence.
Qed.

Lemma split_point_digits (i : list Z) :
  Forall is_ascii_digit i -> split_point i = (i, None).
Proof.
  induction 1 as [|c i Hc _ IH]; simpl; [reflexivity|].
  unfold is_ascii_digit in Hc.
  destruct (Z.eqb_spec c 46); [lia|]. now rewrite IH.
Qed.

Lemma split_point_app (i rest : list Z) :
  Forall is_ascii_digit i -> split_point (i ++ 46 :: rest) = (i, Some rest).
Proof.
  induction 1 as [|c i Hc _ IH]; simpl; [reflexivity|].
  unfold is_ascii_digit in Hc.
  destruct (Z.eqb_spec c 46); [lia|]. now rewrite IH.
Qed.

Lemma lstrip_char_head (ch : Z) (l : list Z) :
  Forall (fun c => c <> ch) l -> lstrip_char ch l = l.
Proof.
  destruct 1 as [|c l Hc _]; simpl; [reflexivity|].
  destruct (Z.eqb_spec c ch); [contradiction|reflexivity].
Qed.

Lemma rstrip_point_digits (i : list Z) :
  Forall is_ascii_digit i -> rstrip_char 46 (i ++ [46]) = i.
Proof.
  intros Hi. unfold rstrip_char. rewrite rev_app_distr. simpl.
  rewrite lstrip_char_head; [apply rev_involutive|].
  apply Forall_forall. intros c Hc.
  apply list_elem_of_In, in_rev, list_elem_of_In in Hc.
  rewrite Forall_forall in Hi. specialize (Hi c Hc).
  unfold is_ascii_digit in Hi. lia.
Qed.

(** A string that does not end with [ch] is left as it is. *)
Lemma rstrip_char_last (ch c : Z) (l : list Z) :
  c <> ch -> rstrip_char ch (l ++ [c]) = l ++ [c].
Proof.
  intros Hc. unfold rstrip_char. rewrite rev_app_distr. simpl.
  destruct (Z.eqb_spec c ch); [contradiction|].
  change (c :: rev l) with (rev [c] ++ rev l).
  rewrite <- rev_app_distr. apply rev_involutive.
Qed.

Lemma rstrip_char_strip (ch : Z) (l : list Z) :
  rstrip_char ch (l ++ [ch]) = rstrip_char ch l.
Proof.
  unfold rstrip_char. rewrite rev_app_distr. simpl.
  now rewrite Z.eqb_refl.
Qed.

Lemma read_display_whole (i : list Z) (n : Z) :
  i <> [] -> Forall is_ascii_digit i -> read_digits 0 i = Some n ->
  read_display i = Some (100 * n).
Proof.
  intros Hne Hdig Hread. unfold read_display.
  rewrite split_point_digits by assumption.
  destruct i as [|c i]; [congruence|]. now rewrite Hread.
Qed.

Lemma read_display_tenths (i : list Z) (n a : Z) :
  i <> [] -> Forall is_ascii_digit i -> read_digits 0 i = Some n ->
  0 <= a <= 9 ->
  read_display (i ++ [46; 48 + a]) = Some (100 * n + 10 * a).
Proof.
  intros Hne Hdig Hread Ha. unfold read_display.
  rewrite split_point_app by assumption.
  destruct i as [|c i]; [congruence|]. rewrite Hread.
  unfold in_range.
  destruct (Z.leb_spec 48 (48 + a)), (Z.leb_spec (48 + a) 57); try lia.
  simpl. f_equal. lia.
Qed.

Lemma read_display_hundredths (i : list Z) (n a b : Z) :
  i <> [] -> Forall is_ascii_digit i -> read_digits 0 i = Some n ->
  0 <= a <= 9 -> 0 <= b <= 9 ->
  read_display (i ++ [46; 48 + a; 48 + b]) = Some (100 * n + 10 * a + b).
Proof.
  intros Hne Hdig Hread Ha Hb. unfold read_display.
  rewrite split_point_app by assumption.
  destruct i as [|c i]; [congruence|]. rewrite Hread.
  unfold in_range.
  destruct (Z.leb_spec 48 (48 + a)), (Z.leb_spec (48 + a) 57); try lia.
  destruct (Z.leb_spec 48 (48 + b)), (Z.leb_spec (48 + b) 57); try lia.
  simpl. f_equal. lia.
Qed.

(** A displayed finite amount reads back as its hundredths. *)
Lemma read_display_cents (u : Z) :
  0 <= Float.cents u ->
  read_display (display (Float.Fin u)) = Some (Float.cents u).
Proof.
  intros Hc. unfold display, format_2f.
  set (c := Float.cents u) in *. clearbody c.
  pose proof (read_str_of_N (Z.to_N (c / 100))) as Hread.
  pose proof (str_of_N_digits (Z.to_N (c / 100))) as Hdig.
  pose proof (str_of_N_nonempty (Z.to_N (c / 100))) as Hne.
  rewrite Z2N.id in Hread by (apply Z.div_pos; lia).
  set (i := str_of_N (Z.to_N (c / 100))) in *. clearbody i.
  assert (Ha : 0 <= c mod 100 / 10 <= 9).
  { pose proof (Z.mod_pos_bound c 100 ltac:(lia)).
    split; [apply Z.div_pos; lia|].
    apply Z.lt_succ_r, Z.div_lt_upper_bound; lia. }
  assert (Hb : 0 <= c mod 10 <= 9)
    by (pose proof (Z.mod_pos_bound c 10 ltac:(lia)); lia).
  assert (Hsum : c = 100 * (c / 100) + 10 * (c mod 100 / 10) + c mod 10).
  { pose proof (Z.div_mod c 100 ltac:(lia)) as H1.
    pose proof (Z.div_mod (c mod 100) 10 ltac:(lia)) as H2.
    replace (c mod 10) with ((c mod 100) mod 10); [lia|].
    apply Z.mod_mod_divide. exists 10. lia. }
  set (a := c mod 100 / 10) in *. set (b := c mod 10) in *.
  clearbody a b. rewrite Hsum at 1. clear Hsum.
  destruct (Z.eq_dec b 0) as [-> | Hb0].
  - replace (i ++ [46; 48 + a; 48 + 0]) with ((i ++ [46; 48 + a]) ++ [48])
      by now rewrite <- app_assoc.
    rewrite rstrip_char_strip.
    destruct (Z.eq_dec a 0) as [-> | Ha0].
    + replace (i ++ [46; 48 + 0]) with ((i ++ [46]) ++ [48])
        by now rewrite <- app_assoc.
      rewrite rstrip_char_strip.
      rewrite (rstrip_char_last 48 46) by lia.
      rewrite rstrip_point_digits by assumption.
      rewrite (read_display_whole i (c / 100)) by assumption.
      f_equal. lia.
    + replace (i ++ [46; 48 + a]) with ((i ++ [46]) ++ [48 + a])
        by now rewrite <- app_assoc.
      rewrite (rstrip_char_last 48 (48 + a)) by lia.
      rewrite (rstrip_char_last 46 (48 + a)) by lia.
      rewrite <- app_assoc. simpl app.
      rewrite (read_display_tenths i (c / 100) a) by assumption.
      f_equal. lia.
  - replace (i ++ [46; 48 + a; 48 + b]) with ((i ++ [46; 48 + a]) ++ [48 + b])
      by now rewrite <- app_assoc.
    rewrite (rstrip_char_last 48 (48 + b)) by lia.
    rewrite (rstrip_char_last 46 (48 + b)) by lia.
    rewrite <- app_assoc. simpl app.
    now rewrite (read_display_hundredths i (c / 100) a b) by assumption.
Qed.

End NumeralFacts.

(** ** The sums of a report *)

Module SumFacts.

Import Text Float Library Report Bounds Accuracy BoundFacts ReportFacts
  NumeralFacts.

Lemma budget_eq (e : Z) (l : list float) (N C N' C' : Z) :
  budget e l N C -> N = N' -> C = C' -> budget e l N' C'.
Proof.
  now intros H <- <-.
Qed.

Lemma budget_nonneg (e : Z) (l : list float) (N C : Z) :
  budget e l N C -> 0 <= N /\ 0 <= C.
Proof.
  induction 1 as [|u c n l N C Ha _ IH]; [lia|].
  unfold approx in Ha. lia.
Qed.

Lemma budget_perm (e : Z) (l l' : list float) :
  l ≡ₚ l' -> forall N C : Z, budget e l N C -> budget e l' N C.
Proof.
  induction 1 as [|x l l' _ IH|x y l|l1 l2 l3 _ IH1 _ IH2]; intros N C H.
  - exact H.
  - inversion H; subst. constructor; auto.
  - inversion H as [|u c n l0 N0 C0 Ha H0]; subst.
    inversion H0 as [|u' c' n' l1 N1 C1 Ha' H1]; subst.
    eapply budget_eq; [apply budget_cons; [exact Ha'|];
                       apply budget_cons; [exact Ha|exact H1] | lia | lia].
  - auto.
Qed.

(** The lines of a report display the hundredths their totals stand
    for. *)
Lemma shown_sum_budget (B : Z) (summary : list (list Z * float)) :
  forall N C : Z,
    budget (err B) (map snd summary) N C ->
    0 <= B -> 100 * N * 2 ^ B < 2 ^ 53 -> shown_sum summary = Some C.
Proof.
  induction summary as [|[k t] summary IH]; intros N C Hb HB Hn; simpl in *.
  - now inversion Hb.
  - inversion Hb as [|u c n l0 N0 C0 Hx Hl]; subst.
    destruct (budget_nonneg _ _ _ _ Hl) as [HN0 HC0].
    assert (Hxn : 0 <= c /\ 0 <= n) by (unfold approx in Hx; lia).
    assert (HP : 0 < 2 ^ B) by (apply Z.pow_pos_nonneg; lia).
    pose proof (cents_approx B c n u Hx HB ltac:(nia)) as Hcents.
    rewrite read_display_cents by lia.
    rewrite (IH N0 C0 Hl HB) by nia. now rewrite Hcents.
Qed.

(** *** The groups of stored rows *)

Lemma group_insert_map {V W : Type} (f : V -> W) (c : list Z) (a : V)
    (groups : list (list Z * list V)) :
  group_insert c (f a) (map (fun g => (fst g, map f (snd g))) groups)
  = map (fun g => (fst g, map f (snd g))) (group_insert c a groups).
Proof.
  induction groups as [|[c' l] rest IH]; simpl; [reflexivity|].
  destruct (Text.eqb c c'); simpl; [now rewrite map_app|].
  destruct (Text.ltb c c'); simpl; [reflexivity|]. now rewrite IH.
Qed.

(** Grouping the rows and changing their values is changing the values
    of the groups. *)
Lemma groups_of_map {V W : Type} (f : V -> W) (rows : list (list Z * V)) :
  groups_of (map (fun r => (fst r, f (snd r))) rows)
  = map (fun g => (fst g, map f (snd g))) (groups_of rows).
Proof.
  unfold groups_of.
  change (@nil (list Z * list W))
    with (map (fun g : list Z * list V => (fst g, map f (snd g))) []).
  generalize (@nil (list Z * list V)).
  induction rows as [|r rows IH]; intros groups; simpl; [reflexivity|].
  rewrite group_insert_map. apply IH.
Qed.

Lemma sum_snoc (l : list Z) (c : Z) :
  fold_right Z.add 0 (l ++ [c]) = fold_right Z.add 0 l + c.
Proof.
  induction l as [|x l IH]; simpl; lia.
Qed.

Lemma sum_nonneg (l : list Z) :
  Forall (fun c => 0 <= c) l -> 0 <= fold_right Z.add 0 l.
Proof.
  induction 1; simpl; lia.
Qed.

Lemma cents_in_nonneg (groups : list (list Z * list Z)) :
  Forall (fun g => Forall (fun c => 0 <= c) (snd g)) groups ->
  0 <= cents_in groups.
Proof.
  unfold cents_in. induction 1 as [|g groups Hg _ IH]; simpl; [lia|].
  pose proof (sum_nonneg _ Hg). lia.
Qed.

Lemma rows_in_nonneg {V : Type} (groups : list (list Z * list V)) :
  0 <= rows_in groups.
Proof.
  unfold rows_in. induction groups; simpl; lia.
Qed.

(** A new row adds its hundredths to the groups, and one row. *)
Lemma group_insert_cents (k : list Z) (c : Z) (groups : list (list Z * list Z)) :
  0 <= c ->
  Forall (fun g => Forall (fun c => 0 <= c) (snd g)) groups ->
  cents_in (group_insert k c groups) = cents_in groups + c
  /\ rows_in (group_insert k c groups) = rows_in groups + 1
  /\ (length (group_insert k c groups) <= S (length groups))%nat
  /\ Forall (fun g => Forall (fun c => 0 <= c) (snd g)) (group_insert k c groups).
Proof.
  intros Hc. unfold cents_in, rows_in.
  induction 1 as [|[k' l] rest Hl Hrest IH]; simpl.
  - repeat split; try lia. repeat constructor. exact Hc.
  - destruct (Text.eqb k k'); simpl.
    + rewrite sum_snoc, length_app. simpl.
      repeat split; try lia.
      constructor; [|exact Hrest]. simpl.
      apply Forall_app. split; [exact Hl|]. repeat constructor. exact Hc.
    + destruct (Text.ltb k k'); simpl.
      * repeat split; try lia.
        constructor; [repeat constructor; exact Hc|].
        constructor; [exact Hl | exact Hrest].
      * destruct IH as (H1 & H2 & H3 & H4).
        repeat split; try lia.
        constructor; [exact Hl | exact H4].
Qed.

Lemma groups_of_cents (crows : list (list Z * Z)) :
  Forall (fun r => 0 <= snd r) crows ->
  cents_in (groups_of crows) = total_cents crows
  /\ rows_in (groups_of crows) = Z.of_nat (length crows)
  /\ (length (groups_of crows) <= length crows)%nat
  /\ Forall (fun g => Forall (fun c => 0 <= c) (snd g)) (groups_of crows).
Proof.
  intros Hpos. unfold groups_of.
  assert (H : forall groups : list (list Z * list Z),
             Forall (fun g => Forall (fun c => 0 <= c) (snd g)) groups ->
             let out := fold_left (fun g r => group_insert (fst r) (snd r) g)
                                  crows groups in
             cents_in out = cents_in groups + total_cents crows
             /\ rows_in out = rows_in groups + Z.of_nat (length crows)
             /\ (length out <= length groups + length crows)%nat
             /\ Forall (fun g => Forall (fun c => 0 <= c) (snd g)) out).
  { induction Hpos as [|[k c] crows Hc _ IH]; intros groups Hg; simpl.
    - unfold total_cents. simpl. repeat split; try lia. exact Hg.
    - simpl in Hc.
      destruct (group_insert_cents k c groups Hc Hg) as (H1 & H2 & H3 & H4).
      destruct (IH _ H4) as (I1 & I2 & I3 & I4).
      change (total_cents ((k, c) :: crows)) with (c + total_cents crows).
      repeat split; try lia. exact I4. }
  destruct (H [] ltac:(constructor)) as (H1 & H2 & H3 & H4).
  split; [rewrite H1; reflexivity|].
  split; [rewrite H2; reflexivity|].
  split; [exact H3 | exact H4].
Qed.

(** The stored amounts of a group stand for their hundredths, within
    one error each. *)
Lemma group_budget (B : Z) (cs : list Z) :
  0 <= B <= 1000 -> Forall (fun c => 0 <= c) cs ->
  fold_right Z.add 0 cs < 100 * 2 ^ B ->
  budget (err B) (map (fun c => of_decimal c 2) cs)
         (Z.of_nat (length cs)) (fold_right Z.add 0 cs).
Proof.
  intros HB. induction 1 as [|c cs Hc Hcs IH]; simpl; intros Hlt.
  - constructor.
  - pose proof (sum_nonneg cs Hcs) as Hs.
    destruct (of_decimal_approx B c HB ltac:(lia)) as (u & -> & Ha).
    eapply budget_eq;
      [apply budget_cons; [exact Ha | apply IH; lia] | lia | lia].
Qed.

(** The sums of the groups stand for the hundredths of the groups,
    within three errors a row. *)
Lemma groups_budget (sum : list float -> float) (B : Z)
    (groups : list (list Z * list Z)) :
  accurate sum -> 0 <= B <= 1000 ->
  Forall (fun g => Forall (fun c => 0 <= c) (snd g)) groups ->
  cents_in groups < 100 * 2 ^ B -> 50 * rows_in groups * 2 ^ B < 2 ^ 53 ->
  budget (err B)
         (map (fun g => sum (map (fun c => of_decimal c 2) (snd g))) groups)
         (3 * rows_in groups) (cents_in groups).
Proof.
  intros Hacc HB.
  assert (HP : 0 < 2 ^ B) by (apply Z.pow_pos_nonneg; lia).
  induction 1 as [|[k cs] rest Hcs Hrest IH]; intros Hlt Hrows.
  - constructor.
  - pose proof (cents_in_nonneg rest Hrest) as Hc0.
    pose proof (rows_in_nonneg rest) as Hr0.
    pose proof (sum_nonneg cs Hcs) as Hs0.
    unfold cents_in, rows_in in *. cbn [map fold_right snd] in *.
    fold (cents_in rest) in *. fold (rows_in rest) in *.
    pose proof (group_budget B cs HB Hcs ltac:(lia)) as Hg.
    destruct (sum_approx sum B _ _ _ Hacc Hg HB ltac:(lia) ltac:(nia))
      as (u & Hu & Ha).
    { rewrite length_map. change (2 ^ 53) with 9007199254740992 in *. nia. }
    rewrite Hu. rewrite length_map in Ha.
    eapply budget_eq;
      [apply budget_cons; [exact Ha | apply IH; [lia | nia]] | lia | lia].
Qed.

(** The report of stored rows: what its lines display adds up to the
    hundredths of the rows, and so does what its total line displays. *)
Lemma report_of_stored_rows (lib : library) (crows : list (list Z * Z)) (B : Z) :
  accurate (group_sum lib) -> accurate (series_sum lib) ->
  Forall (fun r => 0 <= snd r) crows ->
  0 <= B -> total_cents crows < 100 * 2 ^ B ->
  500 * Z.of_nat (length crows) * 2 ^ B < 2 ^ 53 ->
  shown_sum (summary_of lib (map stored_row crows)) = Some (total_cents crows)
  /\ shown_total lib (summary_of lib (map stored_row crows))
       = Some (total_cents crows).
Proof.
  intros Hg Hs Hpos HB Htot Hlen.
  destruct (groups_of_cents crows Hpos) as (Hc & Hr & Hl & Hnn).
  assert (HP : 0 < 2 ^ B) by (apply Z.pow_pos_nonneg; lia).
  assert (Hmap : map snd (groupby_sum lib (map stored_row crows))
                 = map (fun g => group_sum lib
                                   (map (fun c => of_decimal c 2) (snd g)))
                       (groups_of crows)).
  { unfold groupby_sum.
    change (map stored_row crows)
      with (map (fun r : list Z * Z => (fst r, of_decimal (snd r) 2)) crows).
    rewrite (groups_of_map (fun c => of_decimal c 2)), !map_map. reflexivity. }
  assert (Hperm : map snd (summary_of lib (map stored_row crows))
                  ≡ₚ map snd (groupby_sum lib (map stored_row crows))).
  { apply Permutation_map, sort_values_desc_perm. }
  destruct crows as [|r crows].
  - (* no rows: nothing is displayed but a total of zero *)
    split; [reflexivity|].
    unfold shown_total, total_of. simpl.
    destruct (Hs [] 0 53 eq_refl ltac:(lia) ltac:(lia) ltac:(simpl; lia))
      as (u & Hu & Hu0 & Herr).
    simpl in Herr. rewrite Hu.
    assert (u = 0) by lia. subst u.
    now rewrite read_display_cents by (vm_compute; discriminate).
  - assert (HB' : B <= 1000).
    { destruct (Z.le_gt_cases B 53) as [|Hgt]; [lia|].
      assert (2 ^ 53 < 2 ^ B) by (apply Z.pow_lt_mono_r; lia).
      simpl length in Hlen. rewrite Nat2Z.inj_succ in Hlen. nia. }
    set (n := Z.of_nat (length (r :: crows))) in *.
    assert (Hn : 1 <= n) by (unfold n; simpl length; lia).
    assert (Hb : budget (err B)
                   (map snd (summary_of lib (map stored_row (r :: crows))))
                   (3 * n) (total_cents (r :: crows))).
    { apply (budget_perm _ _ _ (symmetry Hperm)). rewrite Hmap.
      rewrite <- Hc, <- Hr.
      apply groups_budget;
        [exact Hg | lia | exact Hnn | rewrite Hc; exact Htot | rewrite Hr; nia]. }
    split.
    + apply (shown_sum_budget B _ _ _ Hb HB). nia.
    + unfold shown_total, total_of.
      assert (Hm : Z.of_nat (length (map snd (summary_of lib
                                       (map stored_row (r :: crows))))) <= n).
      { rewrite (Permutation_length Hperm), Hmap, length_map. unfold n. lia. }
      destruct (sum_approx (series_sum lib) B _ _ _ Hs Hb ltac:(lia) Htot)
        as (u & Hu & Ha); [nia | change (2 ^ 53) with 9007199254740992 in *; nia |].
      rewrite Hu.
      assert (Ha' : approx (err B) (total_cents (r :: crows)) (5 * n) u).
      { eapply approx_mono; [|exact Ha|lia].
        unfold err. apply Z.mul_nonneg_nonneg; [lia|]. apply Z.pow_nonneg. lia. }
      pose proof (cents_approx B _ _ _ Ha' HB ltac:(nia)) as Hcents.
      destruct Ha' as (Hc0 & _ & Hu0 & _).
      rewrite read_display_cents by (rewrite Hcents; exact Hc0).
      now rewrite Hcents.
Qed.

End SumFacts.

Module SumProps.

Import Text Float Library Report Accuracy SumFacts.

(** C8, as stated, fails: the amounts 10000000000000000 and 1, stored
    from the entries "10000000000000000 a" and "1 b", are displayed as
    they are, and the total line displays 10000000000000000, for the sum
    of the two floats is rounded to that number. So it is for every
    library that returns a single amount as the sum of its group and the
    sum of the two floats as the total, as the library with the plain
    sums does. *)
Lemma large_amounts_do_not_add_up :
  Parser.outcomes (py "10000000000000000 a; 1 b")
    = [Parser.Stored (py "a") (of_decimal 1000000000000000000 2);
       Parser.Stored (py "b") (of_decimal 100 2)]
  /\ (forall lib : library,
        group_sum lib [of_decimal 1000000000000000000 2]
          = of_decimal 1000000000000000000 2 ->
        group_sum lib [of_decimal 100 2] = of_decimal 100 2 ->
        series_sum lib [of_decimal 1000000000000000000 2; of_decimal 100 2]
          = add (of_decimal 1000000000000000000 2) (of_decimal 100 2) ->
        shown_sum (summary_of lib (map stored_row [(py "a", 1000000000000000000);
                                                   (py "b", 100)]))
          = Some 1000000000000000100
        /\ shown_total lib
             (summary_of lib (map stored_row [(py "a", 1000000000000000000);
                                              (py "b", 100)]))
             = Some 1000000000000000000)
  /\ group_sum Plain.lib [of_decimal 1000000000000000000 2]
       = of_decimal 1000000000000000000 2
  /\ group_sum Plain.lib [of_decimal 100 2] = of_decimal 100 2
  /\ series_sum Plain.lib [of_decimal 1000000000000000000 2; of_decimal 100 2]
       = add (of_decimal 1000000000000000000 2) (of_decimal 100 2).
Proof.
  split; [vm_compute; reflexivity|].
  split; [|repeat split; vm_compute; reflexivity].
  intros lib Ha Hb Hab.
  assert (Hs : summary_of lib (map stored_row [(py "a", 1000000000000000000);
                                               (py "b", 100)])
               = [(py "a", of_decimal 1000000000000000000 2);
                  (py "b", of_decimal 100 2)]).
  { unfold summary_of, groupby_sum. cbn [map]. unfold stored_row. cbn [fst snd].
    rewrite (proj1 (ReportFacts.groups_of_two (py "a") (py "b") _ _ eq_refl)).
    cbn [map fst snd]. rewrite Ha, Hb. vm_compute. reflexivity. }
  rewrite Hs. split; [vm_compute; reflexivity|].
  unfold shown_total, total_of. cbn [map snd]. rewrite Hab.
  vm_compute. reflexivity.
Qed.

(** C8, amended. For a library whose sums are accurate, and a report of
    [n] stored records whose amounts add up to less than [2 ^ B] with
    [500 * n * 2 ^ B] below [2 ^ 53], the amounts its lines display add
    up to the amount its total line displays, and both are the exact sum
    of the stored amounts. *)
Theorem displayed_total_agrees (lib : library) (crows : list (list Z * Z))
    (B : Z) :
  accurate (group_sum lib) -> accurate (series_sum lib) ->
  Forall (fun r => 0 <= snd r) crows ->
  0 <= B -> total_cents crows < 100 * 2 ^ B ->
  500 * Z.of_nat (length crows) * 2 ^ B < 2 ^ 53 ->
  shown_sum (summary_of lib (map stored_row crows))
    = shown_total lib (summary_of lib (map stored_row crows))
  /\ shown_total lib (summary_of lib (map stored_row crows))
       = Some (total_cents crows).
Proof.
  intros Hg Hs Hpos HB Htot Hlen.
  destruct (report_of_stored_rows lib crows B Hg Hs Hpos HB Htot Hlen) as [H1 H2].
  split; congruence.
Qed.

(** The two records 45.00 and 14.00, which add up to less than 2 ^ 6,
    and the library with the plain sums. *)
Lemma displayed_total_agrees_witness :
  shown_sum (summary_of Plain.lib
               (map stored_row [(py "еда", 4500); (py "напитки", 1400)]))
    = shown_total Plain.lib
        (summary_of Plain.lib
           (map stored_row [(py "еда", 4500); (py "напитки", 1400)]))
  /\ shown_total Plain.lib
       (summary_of Plain.lib
          (map stored_row [(py "еда", 4500); (py "напитки", 1400)]))
       = Some (total_cents [(py "еда", 4500); (py "напитки", 1400)]).
Proof.
  apply (displayed_total_agrees Plain.lib
           [(py "еда", 4500); (py "напитки", 1400)] 6).
  - apply BoundFacts.plain_sum_accurate.
  - apply BoundFacts.plain_sum_accurate.
  - repeat constructor; simpl; lia.
  - lia.
  - vm_compute. reflexivity.
  - vm_compute. reflexivity.
Defined.

End SumProps.

(** ** The scenarios of the specification *)

Module Scenarios.

Import Text Float Ledger Library Parser Report Calendar.

Example two_lines_are_stored :
  outcomes (py "45р еда" ++ [10] ++ py "14 напитки")
    = [Stored (py "еда") (of_decimal 4500 2);
       Stored (py "напитки") (of_decimal 1400 2)].
Proof.
  vm_compute. reflexivity.
Qed.

(** The report of these two records, with the plain sums. *)
Example two_groups_are_reported :
  map (fun item => (fst item, display (snd item)))
      (summary_of Plain.lib
         [(py "еда", of_decimal 4500 2); (py "напитки", of_decimal 1400 2)])
    = [(py "еда", py "45"); (py "напитки", py "14")]
  /\ display (total_of Plain.lib
                (summary_of Plain.lib
                   [(py "еда", of_decimal 4500 2);
                    (py "напитки", of_decimal 1400 2)]))
       = py "59".
Proof.
  split; vm_compute; reflexivity.
Qed.

Example letters_are_a_bad_format : outcomes (py "abc еда") = [BadFormat].
Proof.
  vm_compute. reflexivity.
Qed.

Example second_pick_before_first_is_refused (lib : library) :
  handle_calendar lib [] 7 (CalDay 2024 3 5 "end") {[ 7 := Date 2024 3 10 ]}
    = (Done tt, {[ 7 := Date 2024 3 10 ]},
       [AnswerCallback; end_before_start_alert]).
Proof.
  apply (CalendarFacts.handle_day_end_rejected lib [] 7 2024 3 5 _
           (Date 2024 3 5) (Date 2024 3 10)); [reflexivity | | reflexivity].
  apply lookup_singleton_eq.
Qed.

Example later_pick_is_accepted (lib : library) :
  handle_calendar lib [] 7 (CalDay 2024 3 15 "end") {[ 7 := Date 2024 3 10 ]}
    = (Done tt, delete 7 {[ 7 := Date 2024 3 10 ]},
       [AnswerCallback;
        SendMessage 7 (py "За указанный период расходов нет.")]).
Proof.
  rewrite (CalendarFacts.handle_day_end_accepted lib [] 7 2024 3 15 _
             (Date 2024 3 15) (Date 2024 3 10) eq_refl
             (lookup_singleton_eq _ _) eq_refl).
  reflexivity.
Qed.

End Scenarios.

(** * Further properties *)

(** ** The message handler as a whole *)

Module HandlerFacts.

Import Text Re Ledger Parser Handler Views.

(** The loop, entry by entry: the rows, the count and the error lines
    are those of the outcomes, in their order. *)
Lemma loop_view (now : timestamp) (user : Z) (entries : list (list Z)) :
  forall st : loop_state,
    fold_left (loop_body now user) entries st
    = Loop (loop_db st ++ rows_of now user (map parse_entry entries))
           (success_count st
            + N.of_nat (length (rows_of now user (map parse_entry entries))))
           (errors st ++ flat_map error_line entries).
Proof.
  induction entries as [|entry entries IH]; intros [db n errs]; simpl.
  - now rewrite !app_nil_r, N.add_0_r.
  - rewrite IH. unfold loop_body, error_line, rows_of at 3 4.
    destruct (parse_entry entry) as [c a| |]; simpl;
      rewrite <- ?app_assoc; simpl; f_equal.
    rewrite <- N.add_assoc. f_equal.
    fold (rows_of now user (map parse_entry entries)). lia.
Qed.

End HandlerFacts.

Module HandlerProps.

Import Text Re Ledger Parser Handler Views HandlerFacts.

Lemma entries_of_nil : entries_of [] = [].
Proof.
  vm_compute. reflexivity.
Qed.

(** An entry gives a row or an error line. *)
Lemma row_or_error (now : timestamp) (user : Z) (entry : list Z) :
  rows_of now user [parse_entry entry] <> [] \/ error_line entry <> [].
Proof.
  unfold rows_of, error_line. simpl.
  destruct (parse_entry entry); [left | right | right]; discriminate.
Qed.

(** X1. The database after a message is the database before it with the
    rows of the stored outcomes appended, in the order of the entries:
    no row that was there is changed or dropped. *)
Theorem stored_rows_are_appended (now : timestamp) (user : Z)
    (message_text : list Z) (db : list expense) :
  fst (handle_expense now user message_text db)
    = db ++ rows_of now user (outcomes message_text).
Proof.
  unfold handle_expense, outcomes.
  destruct (eqb (strip message_text) []) eqn:He.
  - apply bool_decide_eq_true in He. rewrite He, entries_of_nil. simpl.
    now rewrite app_nil_r.
  - destruct (entries_of (strip message_text)) as [|e es] eqn:Hes.
    + simpl. now rewrite app_nil_r.
    + cbn [fst]. now rewrite loop_view.
Qed.

(** X2. The answer to a message with entries tells the number of stored
    records, when there is one, and lists the error lines of the other
    entries, when there is one; the answer of the branch
    [if not response] is never sent, for every entry gives a record or
    an error line. *)
Theorem reply_counts_rows_and_lists_errors (now : timestamp) (user : Z)
    (message_text : list Z) (db : list expense) :
  entries_of (strip message_text) <> [] ->
  snd (handle_expense now user message_text db)
    = Some (reply_of
              (N.of_nat (length (rows_of now user (outcomes message_text))))
              (flat_map error_line (entries_of (strip message_text))))
  /\ ((0 <? N.of_nat (length (rows_of now user (outcomes message_text))))%N = true
      \/ flat_map error_line (entries_of (strip message_text)) <> []).
Proof.
  intros Hne. unfold handle_expense, outcomes.
  destruct (eqb (strip message_text) []) eqn:He.
  { apply bool_decide_eq_true in He. rewrite He, entries_of_nil in Hne.
    contradiction. }
  destruct (entries_of (strip message_text)) as [|e es] eqn:Hes; [contradiction|].
  assert (Hsome : (0 <? N.of_nat (length (rows_of now user
                                            (map parse_entry (e :: es)))))%N = true
                  \/ flat_map error_line (e :: es) <> []).
  { destruct (row_or_error now user e) as [Hr | Hr].
    - left. apply N.ltb_lt. unfold rows_of in *. simpl in *.
      rewrite length_app.
      destruct (match parse_entry e with
                | Stored category amount => [Expense user category amount now]
                | _ => []
                end); [contradiction|]. simpl. lia.
    - right. simpl. destruct (error_line e); [contradiction|]. discriminate. }
  split; [|exact Hsome].
  cbn [snd]. rewrite loop_view. cbn [loop_db success_count errors app].
  rewrite N.add_0_l. unfold reply_of.
  set (count := N.of_nat (length (rows_of now user (map parse_entry (e :: es))))) in *.
  set (errs := flat_map error_line (e :: es)) in *.
  clearbody count errs.
  destruct Hsome as [Hc | Herrs].
  - rewrite Hc. reflexivity.
  - destruct errs as [|x errs]; [contradiction|].
    destruct (0 <? count)%N; reflexivity.
Qed.

(** The message "45р еда; abc". *)
Lemma reply_counts_rows_witness :
  snd (handle_expense (Date 2024 3 10, 0) 7 (py "45р еда; abc") [])
    = Some (reply_of
              (N.of_nat (length (rows_of (Date 2024 3 10, 0) 7
                                         (outcomes (py "45р еда; abc")))))
              (flat_map error_line (entries_of (strip (py "45р еда; abc")))))
  /\ ((0 <? N.of_nat (length (rows_of (Date 2024 3 10, 0%Z) 7
                                      (outcomes (py "45р еда; abc")))))%N = true
      \/ flat_map error_line (entries_of (strip (py "45р еда; abc"))) <> []).
Proof.
  apply (reply_counts_rows_and_lists_errors (Date 2024 3 10, 0) 7
           (py "45р еда; abc") []).
  vm_compute. discriminate.
Defined.


(** X4. The conversion of the amount fails for a first group that is no
    number, such as two points or a point alone, and the entry is
    reported with the reason of a bad amount; an amount below half a
    hundredth is above zero and is stored as 0.00. *)
Theorem malformed_amounts_are_bad_amounts :
  outcomes (py "1.2.3 еда") = [BadAmount]
  /\ outcomes (py ". еда") = [BadAmount]
  /\ outcomes (py "0.004 еда") = [Stored (py "еда") (Float.Fin 0)]
  /\ (forall (entry g1 g2 : list Z),
        match_entry (lower entry) = Some (g1, g2) ->
        float_of_str (replace_char 44 46 g1) = None ->
        parse_entry entry = BadAmount).
Proof.
  split; [vm_compute; reflexivity|].
  split; [vm_compute; reflexivity|].
  split; [vm_compute; reflexivity|].
  intros entry g1 g2 Hm Hf. unfold parse_entry. now rewrite Hm, Hf.
Qed.

(** X5. The parser does not tell an entry from the same entry in lower
    case: both have the same outcome. *)
Theorem case_of_an_entry_is_ignored (entry : list Z) :
  parse_entry (lower entry) = parse_entry entry.
Proof.
  unfold parse_entry.
  now rewrite (ParserFacts.lower_fixed _ (ParserFacts.lower_lowered entry)).
Qed.

(** X6. No entry of a message holds a line feed, a comma or a
    semicolon, and no entry is empty: the text is cut at every run of
    these separators, and the empty pieces are dropped. *)
Theorem entries_are_free_of_separators (text entry : list Z) :
  In entry (entries_of text) ->
  forallb (fun c => negb (is_separator c)) entry = true /\ entry <> [].
Proof.
  intros H. split; [now apply (ParserFacts.entries_hold_no_separator text)|].
  unfold entries_of in H.
  apply in_map_iff in H as (piece & <- & H).
  apply List.filter_In in H as [_ H].
  apply negb_true_iff, bool_decide_eq_false in H. exact H.
Qed.

(** The entry "50 еда" of the text "45,50 еда". *)
Lemma entries_are_free_of_separators_witness :
  forallb (fun c => negb (is_separator c)) (py "50 еда") = true
  /\ py "50 еда" <> [].
Proof.
  apply (entries_are_free_of_separators (py "45,50 еда") (py "50 еда")).
  vm_compute. auto.
Defined.

(** X7. A stored amount is never negative: it is the float nearest to a
    whole number of hundredths that is zero or more, or it is the
    infinity that the digits of a number too large convert to. *)
Theorem stored_amounts_are_hundredths (entry c : list Z) (a : Float.float) :
  parse_entry entry = Stored c a ->
  a = Float.Inf \/ exists k : Z, 0 <= k /\ a = Float.of_decimal k 2.
Proof.
  apply StoredFacts.stored_amount_form.
Qed.

(** The entry "45.5 еда". *)
Lemma stored_amounts_are_hundredths_witness :
  Float.of_decimal 4550 2 = Float.Inf
  \/ exists k : Z, 0 <= k /\ Float.of_decimal 4550 2 = Float.of_decimal k 2.
Proof.
  apply (stored_amounts_are_hundredths (py "45.5 еда") (py "еда")
           (Float.of_decimal 4550 2)).
  vm_compute. reflexivity.
Defined.

End HandlerProps.

(** ** Reports at the edges *)

Module DisplayProps.

Import Text Ledger Library Report.

(** X8. A displayed amount drops the zeros after the point and the
    point itself, and never a zero of the whole part; read back, it is
    the amount in hundredths. The infinity is displayed as "inf". *)
Theorem displayed_amounts :
  display (Float.of_decimal 4550 2) = py "45.5"
  /\ display (Float.of_decimal 4505 2) = py "45.05"
  /\ display (Float.of_decimal 10000 2) = py "100"
  /\ display (Float.Fin 0) = py "0"
  /\ display Float.Inf = py "inf"
  /\ (forall u : Z,
        0 <= u ->
        read_display (display (Float.Fin u)) = Some (Float.cents u)).
Proof.
  repeat (split; [vm_compute; reflexivity|]).
  intros u Hu. apply NumeralFacts.read_display_cents.
  now apply StoredFacts.cents_nonneg.
Qed.

Lemma date_ltb_spec (a b : date) :
  date_ltb a b = true
  <-> year a < year b
      \/ (year a = year b
          /\ (month a < month b \/ (month a = month b /\ day a < day b))).
Proof.
  unfold date_ltb.
  rewrite !orb_true_iff, !andb_true_iff, !orb_true_iff, !andb_true_iff,
    !Z.ltb_lt, !Z.eqb_eq. tauto.
Qed.

(** X9. The report of a period whose end lies before its start has no
    rows: the notice is sent and nothing else. *)
Theorem reversed_period_has_no_rows
    (lib : library) (db : list expense) (chat_id : Z)
    (start_date end_date : date) :
  date_ltb end_date start_date = true ->
  select_rows db chat_id start_date end_date = []
  /\ generate_report_for_period lib db chat_id start_date end_date
     = ([SendMessage chat_id (py "За указанный период расходов нет.")], Returns).
Proof.
  intros Hlt.
  assert (H : select_rows db chat_id start_date end_date = []).
  { unfold select_rows.
    replace (List.filter _ db) with (@nil expense); [reflexivity|].
    induction db as [|r db IH]; simpl; [reflexivity|].
    rewrite <- IH.
    destruct (date_leb start_date (fst (created_at r))) eqn:H1;
      [|now rewrite andb_false_r].
    destruct (date_leb (fst (created_at r)) end_date) eqn:H2;
      [|now rewrite andb_false_r].
    exfalso. unfold date_leb in H1, H2.
    apply negb_true_iff in H1, H2.
    apply date_ltb_spec in Hlt.
    assert (N1 : ~ date_ltb (fst (created_at r)) start_date = true) by congruence.
    assert (N2 : ~ date_ltb end_date (fst (created_at r)) = true) by congruence.
    rewrite date_ltb_spec in N1, N2. lia. }
  split; [exact H|]. unfold generate_report_for_period. now rewrite H.
Qed.

(** The period from 2024-03-31 back to 2024-03-01. *)
Lemma reversed_period_witness :
  select_rows [Expense 7 (py "еда") (Float.of_decimal 4500 2) (Date 2024 3 10, 0)]
              7 (Date 2024 3 31) (Date 2024 3 1) = []
  /\ generate_report_for_period Plain.lib
       [Expense 7 (py "еда") (Float.of_decimal 4500 2) (Date 2024 3 10, 0)]
       7 (Date 2024 3 31) (Date 2024 3 1)
     = ([SendMessage 7 (py "За указанный период расходов нет.")], Returns).
Proof.
  apply (reversed_period_has_no_rows Plain.lib
           [Expense 7 (py "еда") (Float.of_decimal 4500 2) (Date 2024 3 10, 0)]
           7 (Date 2024 3 31) (Date 2024 3 1)).
  reflexivity.
Defined.

End DisplayProps.

(** ** The dictionary of selections *)

Module SelectionProps.

Import Text Ledger Library Report Calendar CalendarFacts Tactics.

(** X10. The rows of another user are not in the report of a chat: the
    report is the same with and without them. *)
Theorem other_users_rows_are_not_reported
    (lib : library) (db1 db2 : list expense) (r : expense) (chat_id : Z)
    (start_date end_date : date) :
  user_id r <> chat_id ->
  select_rows (db1 ++ r :: db2) chat_id start_date end_date
    = select_rows (db1 ++ db2) chat_id start_date end_date
  /\ generate_report_for_period lib (db1 ++ r :: db2) chat_id start_date end_date
     = generate_report_for_period lib (db1 ++ db2) chat_id start_date end_date.
Proof.
  intros Hr.
  assert (H : select_rows (db1 ++ r :: db2) chat_id start_date end_date
              = select_rows (db1 ++ db2) chat_id start_date end_date).
  { unfold select_rows. rewrite !List.filter_app. simpl.
    apply Z.eqb_neq in Hr. now rewrite Hr. }
  split; [exact H|]. unfold generate_report_for_period. now rewrite H.
Qed.

Lemma other_users_rows_witness :
  select_rows ([] ++ Expense 8 (py "еда") (Float.of_decimal 4500 2)
                       (Date 2024 3 10, 0) :: [])
              7 (Date 2024 3 1) (Date 2024 3 31)
    = select_rows ([] ++ []) 7 (Date 2024 3 1) (Date 2024 3 31)
  /\ generate_report_for_period Plain.lib
       ([] ++ Expense 8 (py "еда") (Float.of_decimal 4500 2)
                (Date 2024 3 10, 0) :: [])
       7 (Date 2024 3 1) (Date 2024 3 31)
     = generate_report_for_period Plain.lib ([] ++ []) 7
         (Date 2024 3 1) (Date 2024 3 31).
Proof.
  apply (other_users_rows_are_not_reported Plain.lib [] []
           (Expense 8 (py "еда") (Float.of_decimal 4500 2) (Date 2024 3 10, 0))
           7 (Date 2024 3 1) (Date 2024 3 31)).
  simpl. lia.
Defined.

(** X11. A press of a button in one chat changes the selection of no
    other chat, whatever the button. *)
Theorem other_chats_are_untouched
    (lib : library) (db : list expense) (chat_id other : Z) (data : callback)
    (sel : gmap Z date) :
  other <> chat_id ->
  selections_after (handle_calendar lib db chat_id data sel) !! other
    = sel !! other.
Proof.
  intros Hne. unfold selections_after.
  destruct data as [y m mode | y m mode | y m d mode | y m d | |];
    run_handler; try reflexivity.
  - destruct (mk_date y m 1) as [d0|]; simpl; [|reflexivity].
    destruct (add_months d0 (-1)); reflexivity.
  - destruct (mk_date y m 1) as [d0|]; simpl; [|reflexivity].
    destruct (add_months d0 1); reflexivity.
  - destruct (mk_date y m d) as [selected|]; simpl; [|reflexivity].
    destruct (String.eqb mode "start"); simpl.
    + now apply lookup_insert_ne.
    + destruct (String.eqb mode "end"); simpl; [|reflexivity].
      destruct (sel !! chat_id) as [start|]; simpl; [|reflexivity].
      destruct (date_ltb selected start); simpl; [reflexivity|].
      destruct (snd (generate_report_for_period lib db chat_id start selected));
        simpl; [|reflexivity].
      now apply lookup_delete_ne.
  - destruct (mk_date y m d) as [selected|]; simpl; [|reflexivity].
    now destruct (snd (generate_report_for_period lib db chat_id selected selected)).
Qed.

Lemma other_chats_witness :
  selections_after
    (handle_calendar Plain.lib [] 7 (CalDay 2024 3 10 "start")
       {[ 8 := Date 2024 1 1 ]}) !! 8
    = ({[ 8 := Date 2024 1 1 ]} : gmap Z date) !! 8.
Proof.
  apply (other_chats_are_untouched Plain.lib [] 7 8). lia.
Defined.



(** X13. A range picked from start to end: the day of the start calendar
    puts the start date in the dictionary, and the day of the end
    calendar, when its report has returned, leaves the dictionary
    without an entry of the chat; a chat that had none before has the
    dictionary it began with. *)
Theorem a_finished_range_leaves_no_selection
    (lib : library) (db : list expense) (chat_id y1 m1 d1 y2 m2 d2 : Z)
    (sel : gmap Z date) (start_date end_date : date) :
  mk_date y1 m1 d1 = Some start_date -> mk_date y2 m2 d2 = Some end_date ->
  date_ltb end_date start_date = false ->
  snd (generate_report_for_period lib db chat_id start_date end_date) = Returns ->
  selections_after
    (handle_calendar lib db chat_id (CalDay y1 m1 d1 "start") sel) !! chat_id
    = Some start_date
  /\ selections_after
       (handle_calendar lib db chat_id (CalDay y2 m2 d2 "end")
          (selections_after
             (handle_calendar lib db chat_id (CalDay y1 m1 d1 "start") sel)))
     = delete chat_id sel
  /\ (sel !! chat_id = None -> delete chat_id sel = sel).
Proof.
  intros Hs He Hlt Hret.
  rewrite (handle_day_start lib db chat_id y1 m1 d1 sel start_date Hs).
  unfold selections_after at 1 3. cbn [fst snd].
  split; [apply lookup_insert_eq|].
  split; [|apply delete_id].
  rewrite (handle_day_end_accepted lib db chat_id y2 m2 d2 _ end_date start_date
             He (lookup_insert_eq _ _ _) Hlt).
  rewrite Hret. unfold selections_after. cbn [fst snd].
  apply delete_insert_eq.
Qed.

Lemma a_finished_range_witness :
  selections_after
    (handle_calendar Plain.lib [] 7 (CalDay 2024 3 10 "start") ∅) !! 7
    = Some (Date 2024 3 10)
  /\ selections_after
       (handle_calendar Plain.lib [] 7 (CalDay 2024 3 15 "end")
          (selections_after
             (handle_calendar Plain.lib [] 7 (CalDay 2024 3 10 "start") ∅)))
     = delete 7 ∅
  /\ ((∅ : gmap Z date) !! 7 = None -> delete 7 (∅ : gmap Z date) = ∅).
Proof.
  apply (a_finished_range_leaves_no_selection Plain.lib [] 7 2024 3 10 2024 3 15 ∅
           (Date 2024 3 10) (Date 2024 3 15)); reflexivity.
Defined.

(** X14. At the two ends of the range of dates there is no month to
    show: the previous month of January of the year 1 and the next month
    of December 9999 raise, with the selections as they were and nothing
    sent. *)
Theorem navigation_raises_at_the_ends (lib : library) (db : list expense)
    (chat_id : Z) (mode : string) (sel : gmap Z date) :
  handle_calendar lib db chat_id (CalPrev 1 1 mode) sel
    = (Raised, sel, [AnswerCallback])
  /\ handle_calendar lib db chat_id (CalNext 9999 12 mode) sel
       = (Raised, sel, [AnswerCallback]).
Proof.
  split; reflexivity.
Qed.

(** X15. The button of the single day, which the calendar of the start
    has and the calendar of the end has not, calls for the report of
    the day the calendar was sent for. *)
Theorem single_button_reports_its_day
    (lib : library) (db : list expense) (chat_id : Z) (target_date : date)
    (sel : gmap Z date) :
  mk_date (year target_date) (month target_date) (day target_date)
    = Some target_date ->
  single_button target_date "end" = None
  /\ exists data : callback,
       single_button target_date "start" = Some data
       /\ log_of (handle_calendar lib db chat_id data sel)
          = AnswerCallback
              :: fst (generate_report_for_period lib db chat_id
                        target_date target_date).
Proof.
  intros Hd. split; [reflexivity|].
  eexists. split; [reflexivity|].
  now rewrite (handle_single lib db chat_id _ _ _ sel target_date Hd).
Qed.

Lemma single_button_witness :
  single_button (Date 2024 3 10) "end" = None
  /\ exists data : callback,
       single_button (Date 2024 3 10) "start" = Some data
       /\ log_of (handle_calendar Plain.lib [] 7 data ∅)
          = AnswerCallback
              :: fst (generate_report_for_period Plain.lib [] 7
                        (Date 2024 3 10) (Date 2024 3 10)).
Proof.
  apply (single_button_reports_its_day Plain.lib [] 7 (Date 2024 3 10) ∅).
  reflexivity.
Defined.

End SelectionProps.
